(** * django-gravatar: the template tags of [gravatar/templatetags/gravatar.py]

    A shallow embedding of the module and the properties of its tags.

    The module is Python 2 code.  A [str] is a byte string, which is what
    [Stdlib.Strings.String.string] is; the tags are first written on [str]
    emails, and the identity token also on [unicode] ones, where
    [hashlib.md5] can raise (Module [Text]).  Values whose type the
    code leaves open (the optional [size] and [rating] arguments and the
    settings) are values of [pyval].  Python's built-ins and standard library
    ([str.lower], [hashlib.md5], [urllib.urlencode], [%] formatting) are
    modelled as they are defined; the Django collaborators (URL quoting, the
    user table, the HTTP fetch and the JSON decoder) are the variables of
    Section [Tags]. *)

From Stdlib Require Import ZArith List Bool Ascii String Lia.
From Stdlib Require Import Numbers.DecimalString.
Import ListNotations.

Local Open Scope string_scope.

(* ------------------------------------------------------------------ *)
(** ** Python byte strings *)

Module PyStr.

Definition ord (c : ascii) : Z := Z.of_N (N_of_ascii c).
Definition chr (z : Z) : ascii := ascii_of_N (Z.to_N z).

Definition is_ascii_upper (c : ascii) : bool :=
  ((65 <=? ord c) && (ord c <=? 90))%Z.
Definition is_ascii_lower (c : ascii) : bool :=
  ((97 <=? ord c) && (ord c <=? 122))%Z.

(** [tolower] and [toupper] of the C locale, under which Python 2 runs. *)
Definition tolower (c : ascii) : ascii :=
  if is_ascii_upper c then chr (ord c + 32) else c.
Definition toupper (c : ascii) : ascii :=
  if is_ascii_lower c then chr (ord c - 32) else c.

Fixpoint map (f : ascii -> ascii) (s : string) : string :=
  match s with
  | EmptyString => EmptyString
  | String c r => String (f c) (map f r)
  end.

(** [s.lower()] and [s.upper()] *)
Definition lower (s : string) : string := map tolower s.
Definition upper (s : string) : string := map toupper s.

Fixpoint forallb (p : ascii -> bool) (s : string) : bool :=
  match s with
  | EmptyString => true
  | String c r => p c && forallb p r
  end.

Fixpoint existsb (p : ascii -> bool) (s : string) : bool :=
  match s with
  | EmptyString => false
  | String c r => p c || existsb p r
  end.

(** [c in s] for a one-character [c] *)
Definition contains (c : ascii) (s : string) : bool :=
  existsb (Ascii.eqb c) s.

(** [sep.join(l)] *)
Fixpoint join (sep : string) (l : list string) : string :=
  match l with
  | [] => ""
  | [x] => x
  | x :: r => x ++ sep ++ join sep r
  end.

(** [s.replace(a, b)] for one-character [a] and [b] *)
Definition replace (a b : ascii) (s : string) : string :=
  map (fun c => if Ascii.eqb c a then b else c) s.

Definition bytes (s : string) : list Z :=
  List.map ord (list_ascii_of_string s).

Definition hexdigit (lowercase : bool) (d : Z) : ascii :=
  if (d <? 10)%Z then chr (48 + d)
  else chr ((if lowercase then 87 else 55) + d).

(** the two hexadecimal digits of a byte *)
Definition hex2 (lowercase : bool) (b : Z) (rest : string) : string :=
  String (hexdigit lowercase (Z.shiftr b 4))
         (String (hexdigit lowercase (Z.land b 15)) rest).

Definition is_lower_hex (c : ascii) : bool :=
  ((48 <=? ord c) && (ord c <=? 57) || (97 <=? ord c) && (ord c <=? 102))%Z.

End PyStr.

(* ------------------------------------------------------------------ *)
(** ** [hashlib.md5]: the MD5 message digest of RFC 1321 on 32-bit words *)

Module Hashlib.

Local Open Scope Z_scope.

Definition mask32 : Z := 0xFFFFFFFF.
Definition add32 (a b : Z) : Z := Z.land (a + b) mask32.
Definition not32 (a : Z) : Z := Z.lxor a mask32.
Definition rotl32 (x n : Z) : Z :=
  Z.land (Z.lor (Z.shiftl x n) (Z.shiftr x (32 - n))) mask32.

Definition K : list Z :=
  [ 0xd76aa478; 0xe8c7b756; 0x242070db; 0xc1bdceee;
    0xf57c0faf; 0x4787c62a; 0xa8304613; 0xfd469501;
    0x698098d8; 0x8b44f7af; 0xffff5bb1; 0x895cd7be;
    0x6b901122; 0xfd987193; 0xa679438e; 0x49b40821;
    0xf61e2562; 0xc040b340; 0x265e5a51; 0xe9b6c7aa;
    0xd62f105d; 0x02441453; 0xd8a1e681; 0xe7d3fbc8;
    0x21e1cde6; 0xc33707d6; 0xf4d50d87; 0x455a14ed;
    0xa9e3e905; 0xfcefa3f8; 0x676f02d9; 0x8d2a4c8a;
    0xfffa3942; 0x8771f681; 0x6d9d6122; 0xfde5380c;
    0xa4beea44; 0x4bdecfa9; 0xf6bb4b60; 0xbebfbc70;
    0x289b7ec6; 0xeaa127fa; 0xd4ef3085; 0x04881d05;
    0xd9d4d039; 0xe6db99e5; 0x1fa27cf8; 0xc4ac5665;
    0xf4292244; 0x432aff97; 0xab9423a7; 0xfc93a039;
    0x655b59c3; 0x8f0ccc92; 0xffeff47d; 0x85845dd1;
    0x6fa87e4f; 0xfe2ce6e0; 0xa3014314; 0x4e0811a1;
    0xf7537e82; 0xbd3af235; 0x2ad7d2bb; 0xeb86d391 ].

Definition shifts : list Z :=
  [ 7; 12; 17; 22; 7; 12; 17; 22; 7; 12; 17; 22; 7; 12; 17; 22;
    5;  9; 14; 20; 5;  9; 14; 20; 5;  9; 14; 20; 5;  9; 14; 20;
    4; 11; 16; 23; 4; 11; 16; 23; 4; 11; 16; 23; 4; 11; 16; 23;
    6; 10; 15; 21; 6; 10; 15; 21; 6; 10; 15; 21; 6; 10; 15; 21 ].

Definition nthZ (l : list Z) (i : Z) : Z := nth (Z.to_nat i) l 0.

(** the [n] low bytes of [x], the lowest first *)
Definition le_bytes (n : nat) (x : Z) : list Z :=
  List.map (fun i => Z.land (Z.shiftr x (8 * Z.of_nat i)) 255) (seq 0 n).

(** the message, the byte 0x80, zeros up to 56 modulo 64, and the length
    in bits as 8 little-endian bytes *)
Definition pad (msg : list Z) : list Z :=
  let len := Z.of_nat (List.length msg) in
  let zeros := (55 - len) mod 64 in
  (msg ++ [128] ++ repeat 0 (Z.to_nat zeros)
      ++ le_bytes 8 (Z.land (8 * len) 0xFFFFFFFFFFFFFFFF))%list.

Fixpoint words (n : nat) (bs : list Z) : list Z :=
  match n, bs with
  | S n', b0 :: b1 :: b2 :: b3 :: r =>
      (b0 + Z.shiftl b1 8 + Z.shiftl b2 16 + Z.shiftl b3 24) :: words n' r
  | _, _ => []
  end.

Record state := State { sa : Z; sb : Z; sc : Z; sd : Z }.

Definition init : state :=
  State 0x67452301 0xefcdab89 0x98badcfe 0x10325476.

Definition step (M : list Z) (st : state) (i : Z) : state :=
  let '(State a b c d) := st in
  let '(f, g) :=
    if i <? 16 then (Z.lor (Z.land b c) (Z.land (not32 b) d), i)
    else if i <? 32 then
      (Z.lor (Z.land d b) (Z.land (not32 d) c), (5 * i + 1) mod 16)
    else if i <? 48 then (Z.lxor b (Z.lxor c d), (3 * i + 5) mod 16)
    else (Z.lxor c (Z.lor b (not32 d)), (7 * i) mod 16) in
  let f' := add32 (add32 (add32 f a) (nthZ K i)) (nthZ M g) in
  State d (add32 b (rotl32 f' (nthZ shifts i))) b c.

Definition block (st : state) (M : list Z) : state :=
  let r := fold_left (step M) (List.map Z.of_nat (seq 0 64)) st in
  State (add32 (sa st) (sa r)) (add32 (sb st) (sb r))
        (add32 (sc st) (sc r)) (add32 (sd st) (sd r)).

Fixpoint blocks (n : nat) (st : state) (bs : list Z) : state :=
  match n with
  | O => st
  | S n' => blocks n' (block st (words 16 bs)) (skipn 64 bs)
  end.

(** [hashlib.md5(s).digest()]: 16 bytes *)
Definition md5 (s : string) : list Z :=
  let p := pad (PyStr.bytes s) in
  let st := blocks (List.length p / 64) init p in
  (le_bytes 4 (sa st) ++ le_bytes 4 (sb st)
    ++ le_bytes 4 (sc st) ++ le_bytes 4 (sd st))%list.

(** [.hexdigest()]: two lowercase hexadecimal digits per byte *)
Definition hexdigest (digest : list Z) : string :=
  fold_right (PyStr.hex2 true) "" digest.

End Hashlib.

(* ------------------------------------------------------------------ *)
(** ** Python values, truthiness, [or], [str] and [*] *)

(** What a tag argument or a setting can be: [None], an [int], a [str]. *)
Inductive pyval : Type :=
| PNone
| PInt (n : Z)
| PStr (s : string).

Inductive pyexc : Type :=
| TypeError (msg : string)
| AttributeError (msg : string)
| Exception (msg : string)
| DoesNotExist
| MultipleObjectsReturned
| IOError (msg : string)
| ValueError (msg : string)
| UnicodeEncodeError (msg : string).

Inductive result (A : Type) : Type :=
| Ok (a : A)
| Raise (e : pyexc).
Arguments Ok {A} a.
Arguments Raise {A} e.

Definition bind {A B : Type} (r : result A) (k : A -> result B) : result B :=
  match r with
  | Ok a => k a
  | Raise e => Raise e
  end.

Notation "x <- r ;; k" := (bind r (fun x => k))
  (at level 61, r at next level, right associativity).

(** [bool(v)] *)
Definition truthy (v : pyval) : bool :=
  match v with
  | PNone => false
  | PInt n => negb (n =? 0)%Z
  | PStr s => negb (s =? "")
  end.

(** [a or b] *)
Definition py_or (a b : pyval) : pyval := if truthy a then a else b.

(** [str(v)], which is also what [%s] inserts *)
Definition py_str (v : pyval) : string :=
  match v with
  | PNone => "None"
  | PInt n => NilZero.string_of_int (Z.to_int n)
  | PStr s => s
  end.

(** [v * 2]: arithmetic on an [int], repetition on a [str], a [TypeError]
    on [None] *)
Definition py_mul2 (v : pyval) : result pyval :=
  match v with
  | PNone =>
      Raise (TypeError "unsupported operand type(s) for *: 'NoneType' and 'int'")
  | PInt n => Ok (PInt (n * 2))
  | PStr s => Ok (PStr (s ++ s))
  end.

(* ------------------------------------------------------------------ *)
(** ** [urllib.quote], [urllib.quote_plus], [urllib.urlencode] *)

Module Urllib.

Import PyStr.

Definition always_safe : string :=
  "ABCDEFGHIJKLMNOPQRSTUVWXYZabcdefghijklmnopqrstuvwxyz0123456789_.-".

Definition PERCENT : ascii := Eval cbv in ascii_of_N 37.
Definition SPACE : ascii := Eval cbv in ascii_of_N 32.
Definition PLUS : ascii := Eval cbv in ascii_of_N 43.

Definition quote_char (safe : string) (c : ascii) (rest : string) : string :=
  if contains c always_safe || contains c safe then String c rest
  else String PERCENT (hex2 false (ord c) rest).

Fixpoint quote (safe : string) (s : string) : string :=
  match s with
  | EmptyString => EmptyString
  | String c r => quote_char safe c (quote safe r)
  end.

Definition quote_plus (s : string) : string :=
  if contains SPACE s then replace SPACE PLUS (quote " " s)
  else quote "" s.

(** [urlencode(query, doseq=True)] on a list of pairs whose values are
    [pyval]s: none of them is a sequence, each contributes one
    [k=v] item. *)
Definition urlencode (query : list (string * pyval)) : string :=
  join "&"
    (List.map (fun kv => quote_plus (fst kv) ++ "=" ++ quote_plus (py_str (snd kv)))
              query).

End Urllib.

(* ------------------------------------------------------------------ *)
(** ** The settings and the user model *)

Record Settings : Type := mkSettings {
  GRAVATAR_URL_PREFIX : string;
  GRAVATAR_DEFAULT_IMAGE : pyval;
  GRAVATAR_DEFAULT_RATING : pyval;
  GRAVATAR_DEFAULT_SIZE : pyval;
  GRAVATAR_IMG_CLASS : pyval
}.

(** the third arguments of the [getattr(settings, ...)] calls *)
Definition default_settings : Settings :=
  {| GRAVATAR_URL_PREFIX := "http://www.gravatar.com/";
     GRAVATAR_DEFAULT_IMAGE := PStr "";
     GRAVATAR_DEFAULT_RATING := PStr "g";
     GRAVATAR_DEFAULT_SIZE := PInt 80;
     GRAVATAR_IMG_CLASS := PStr "gravatar" |}.

Module User.
Record t : Type := make { username : string; email : string }.
End User.

(** The [user] argument of the [*_for_user] tags: a [User] instance or a
    user name. *)
Inductive userarg : Type :=
| UserObj (u : User.t)
| UserName (name : string).

(** [user.username] *)
Definition getattr_username (user : userarg) : result string :=
  match user with
  | UserObj u => Ok (User.username u)
  | UserName _ =>
      Raise (AttributeError "'str' object has no attribute 'username'")
  end.

Definition DQUOTE : ascii := Eval cbv in ascii_of_N 34.
Definition dq : string := String DQUOTE "".

(** A run of the profile tags: the URLs requested, in order, and the
    outcome. *)
Definition io (A : Type) : Type := (list string * result A)%type.

Definition io_bind {A B : Type} (m : io A) (k : A -> io B) : io B :=
  match m with
  | (t, Ok a) => let '(t', r) := k a in ((t ++ t')%list, r)
  | (t, Raise e) => (t, Raise e)
  end.

Definition io_lift {A : Type} (r : result A) : io A := ([], r).

(* ------------------------------------------------------------------ *)
(** ** The template tags *)

Section Tags.

(** the settings read when the module is imported *)
Variable cfg : Settings.
(** [django.utils.html.smart_urlquote] *)
Variable smart_urlquote : string -> string.
(** the rows behind [User.objects] *)
Variable users : list User.t.
(** what [urllib.urlopen(url)] delivers when read: the body of the
    response, or the exception raised on the way *)
Variable urlopen : string -> result string.
(** [simplejson.load] on that body, into Python's JSON values *)
Variable JSON : Type.
Variable simplejson_load : string -> result JSON.

Definition _imgclass_attr : string :=
  if truthy (GRAVATAR_IMG_CLASS cfg)
  then " class=" ++ dq ++ py_str (GRAVATAR_IMG_CLASS cfg) ++ dq
  else "".

Definition _wrap_img_tag (url info : string) (size : pyval) : string :=
  "<img src=" ++ dq ++ smart_urlquote url ++ dq ++ _imgclass_attr
    ++ " alt=" ++ dq ++ "Avatar for " ++ info ++ dq
    ++ " height=" ++ dq ++ py_str size ++ dq
    ++ " width=" ++ dq ++ py_str size ++ dq ++ "/>".

(** [User.objects.get(username=name)] *)
Definition objects_get (name : string) : result User.t :=
  match filter (fun u => User.username u =? name) users with
  | [] => Raise DoesNotExist
  | [u] => Ok u
  | _ => Raise MultipleObjectsReturned
  end.

Definition _get_user (user : userarg) : result User.t :=
  match user with
  | UserObj u => Ok u
  | UserName name =>
      match objects_get name with
      | Raise DoesNotExist => Raise (Exception "Bad user for gravatar.")
      | r => r
      end
  end.

(** on a [str]; Module [Text] has it on both string types *)
Definition _get_gravatar_id (email : string) : string :=
  Hashlib.hexdigest (Hashlib.md5 (PyStr.lower email)).

Definition gravatar_id_for_email (email : string) : string :=
  _get_gravatar_id email.

Definition gravatar_id_for_user (user : userarg) : result string :=
  user <- _get_user user ;;
  Ok (gravatar_id_for_email (User.email user)).

(** the list comprehension of [gravatar_for_email] *)
Definition parameters (size rating : pyval) : list (string * pyval) :=
  filter (fun p => truthy (snd p))
    [ ("d", GRAVATAR_DEFAULT_IMAGE cfg);
      ("s", py_or size (GRAVATAR_DEFAULT_SIZE cfg));
      ("r", py_or rating (GRAVATAR_DEFAULT_RATING cfg)) ].

Definition gravatar_for_email (email : string) (size rating : pyval)
  : string :=
  let gravatar_url :=
    GRAVATAR_URL_PREFIX cfg ++ "avatar/" ++ _get_gravatar_id email in
  let parameters := parameters size rating in
  let gravatar_url :=
    match parameters with
    | [] => gravatar_url
    | _ :: _ => gravatar_url ++ "?" ++ Urllib.urlencode parameters
    end in
  smart_urlquote gravatar_url.

Definition gravatar_for_user (user : userarg) (size rating : pyval)
  : result string :=
  user <- _get_user user ;;
  Ok (gravatar_for_email (User.email user) size rating).

Definition gravatar_retina_img_for_email
  (email : string) (size rating : pyval) : result string :=
  size2 <- py_mul2 size ;;
  let gravatar_url := gravatar_for_email email size2 rating in
  Ok (_wrap_img_tag gravatar_url email size).

Definition gravatar_retina_img_for_user
  (user : userarg) (size rating : pyval) : result string :=
  size2 <- py_mul2 size ;;
  gravatar_url <- gravatar_for_user user size2 rating ;;
  username <- getattr_username user ;;
  Ok (_wrap_img_tag gravatar_url username size).

Definition gravatar_img_for_email
  (email : string) (size rating : pyval) : result string :=
  let gravatar_url := gravatar_for_email email size rating in
  Ok (_wrap_img_tag gravatar_url email size).

Definition gravatar_img_for_user
  (user : userarg) (size rating : pyval) : result string :=
  gravatar_url <- gravatar_for_user user size rating ;;
  username <- getattr_username user ;;
  Ok (_wrap_img_tag gravatar_url username size).

Definition gravatar_profile_for_email (email : string) : io JSON :=
  let gravatar_url :=
    GRAVATAR_URL_PREFIX cfg ++ _get_gravatar_id email ++ ".json" in
  io_bind ([gravatar_url], urlopen gravatar_url)
          (fun body => io_lift (simplejson_load body)).

Definition gravatar_profile_for_user (user : userarg) : io JSON :=
  io_bind (io_lift (_get_user user))
          (fun user => gravatar_profile_for_email (User.email user)).

End Tags.

Arguments gravatar_profile_for_email cfg urlopen {JSON} simplejson_load email.
Arguments gravatar_profile_for_user cfg users urlopen {JSON} simplejson_load user.

(** The spec's [resolveEmail]: the two steps, [user = _get_user(user)] and
    then [user.email], with which the [*_for_user] tags start. *)
Definition resolveEmail (users : list User.t) (user : userarg)
  : result string :=
  user <- _get_user users user ;;
  Ok (User.email user).

(* ------------------------------------------------------------------ *)
(** ** An instance of the URL-quoting collaborator

    [django.utils.html.smart_urlquote] on a byte string with a plain host
    name: a URL without [%], or with a [%] that two hexadecimal digits do
    not follow, is quoted with [urllib.quote] and the safe characters
    below; any other is taken as quoted already.  Concrete runs of the tags
    are evaluated with it. *)

Module Django.

Import PyStr.

Definition is_hex (c : ascii) : bool :=
  contains c "0123456789ABCDEFabcdef".

Definition two_hex (s : string) : bool :=
  match s with
  | String a (String b _) => is_hex a && is_hex b
  | _ => false
  end.

(** [unquoted_percents_re.search(url)], for the pattern
    [%(?![0-9A-Fa-f]{2})] *)
Fixpoint unquoted_percents (url : string) : bool :=
  match url with
  | EmptyString => false
  | String c r =>
      (Ascii.eqb c Urllib.PERCENT && negb (two_hex r)) || unquoted_percents r
  end.

Definition safe : string := "!*'();:@&=+$,/?#[]~".

Definition smart_urlquote (url : string) : string :=
  if negb (contains Urllib.PERCENT url) || unquoted_percents url
  then Urllib.quote safe url
  else url.

End Django.

(* ------------------------------------------------------------------ *)
(** ** Reading an [<img .../>] element back

    What it is for the output of [_wrap_img_tag] to be a well-formed
    self-closing element: the text [<img], then attributes, each a space, a
    name of letters, [=] and a value between double quotes, then [/>].
    [parse_img] returns the attributes in order, or [None] for any other
    text. *)

Module Html.

Import PyStr.

Definition attr : Type := (string * string)%type.

Inductive mode : Type :=
| Between
| InName (name : string)
| OpenQuote (name : string)
| InValue (name value : string)
| Slash
| Closed.

Definition is_letter (c : ascii) : bool :=
  is_ascii_lower c || is_ascii_upper c.

Definition SPACE : ascii := Urllib.SPACE.
Definition EQUALS : ascii := Eval cbv in ascii_of_N 61.
Definition SLASH : ascii := Eval cbv in ascii_of_N 47.
Definition GT : ascii := Eval cbv in ascii_of_N 62.

Definition snoc (s : string) (c : ascii) : string := s ++ String c "".

Fixpoint scan (s : string) (m : mode) (acc : list attr)
  : option (list attr) :=
  match s with
  | EmptyString =>
      match m with
      | Closed => Some (rev acc)
      | _ => None
      end
  | String c r =>
      match m with
      | Between =>
          if Ascii.eqb c SPACE then scan r (InName "") acc
          else if Ascii.eqb c SLASH then scan r Slash acc
          else None
      | InName n =>
          if is_letter c then scan r (InName (snoc n c)) acc
          else if Ascii.eqb c EQUALS && negb (n =? "")
          then scan r (OpenQuote n) acc
          else None
      | OpenQuote n =>
          if Ascii.eqb c DQUOTE then scan r (InValue n "") acc else None
      | InValue n v =>
          if Ascii.eqb c DQUOTE then scan r Between ((n, v) :: acc)
          else scan r (InValue n (snoc v c)) acc
      | Slash => if Ascii.eqb c GT then scan r Closed acc else None
      | Closed => None
      end
  end.

Definition parse_img (s : string) : option (list attr) :=
  match s with
  | String "<" (String "i" (String "m" (String "g" r))) => scan r Between []
  | _ => None
  end.

(** the values of the attributes called [name], in order *)
Definition values (name : string) (attrs : list attr) : list string :=
  List.map snd (filter (fun a => fst a =? name) attrs).

Definition no_dquote (s : string) : bool := negb (contains DQUOTE s).

Definition is_name (n : string) : bool :=
  forallb is_letter n && negb (n =? "").

(** one attribute as text, and an element with the attributes [attrs] *)
Definition render (a : attr) : string :=
  " " ++ fst a ++ "=" ++ dq ++ snd a ++ dq.

Fixpoint render_all (attrs : list attr) : string :=
  match attrs with
  | [] => "/>"
  | a :: r => render a ++ render_all r
  end.

Definition render_img (attrs : list attr) : string :=
  "<img" ++ render_all attrs.

End Html.

(** an attribute that [parse_img] reads back: a name of letters and a value
    without a double quote *)
Definition attr_ok (a : Html.attr) : Prop :=
  Html.is_name (fst a) = true /\ Html.no_dquote (snd a) = true.

(** What the spec asks of the text [out] of an image element: it is
    well-formed, with one [src] whose value is [src], one [alt] whose value
    is [alt], [height] and [width] with the size, and a [class] exactly when
    a class is configured. *)
Definition img_element (cfg : Settings) (src alt : string)
  (size : pyval) (out : string) : Prop :=
  exists attrs,
    Html.parse_img out = Some attrs
    /\ Html.values "src" attrs = [src]
    /\ Html.values "alt" attrs = [alt]
    /\ Html.values "height" attrs = [py_str size]
    /\ Html.values "width" attrs = [py_str size]
    /\ (Html.values "class" attrs <> []
        <-> truthy (GRAVATAR_IMG_CLASS cfg) = true).

(** The attributes [_wrap_img_tag] writes, in order. *)
Definition img_attrs (cfg : Settings) (quoted_url info : string)
  (size : pyval) : list Html.attr :=
  [("src", quoted_url)]
    ++ (if truthy (GRAVATAR_IMG_CLASS cfg)
        then [("class", py_str (GRAVATAR_IMG_CLASS cfg))] else [])
    ++ [("alt", "Avatar for " ++ info);
        ("height", py_str size);
        ("width", py_str size)].

(* ------------------------------------------------------------------ *)
(** ** Sample data for concrete runs *)

Definition jtauber : User.t := User.make "jtauber" "jtauber@example.com".
Definition sample_users : list User.t :=
  [User.make "alice" "Alice@Example.com"; jtauber].

(** settings under which every default is falsy *)
Definition bare_settings : Settings :=
  {| GRAVATAR_URL_PREFIX := "http://www.gravatar.com/";
     GRAVATAR_DEFAULT_IMAGE := PStr "";
     GRAVATAR_DEFAULT_RATING := PStr "";
     GRAVATAR_DEFAULT_SIZE := PNone;
     GRAVATAR_IMG_CLASS := PStr "" |}.

(** a network on which only one profile exists, and a decoder that accepts
    only objects; the decoded value is kept as its text *)
Definition sample_urlopen (url : string) : result string :=
  if url =? "http://www.gravatar.com/16d113840f999444259f73bac9ab8b10.json"
  then Ok "{}"
  else if url =? "http://www.gravatar.com/e75005d5a032a4601c8908fbe1e3bed4.json"
  then Ok "User not found"
  else Raise (IOError "[Errno socket error] connection refused").

Definition sample_load (body : string) : result string :=
  match body with
  | String "{" _ => Ok body
  | _ => Raise (ValueError "No JSON object could be decoded")
  end.


(* ------------------------------------------------------------------ *)
(** ** The URL before quoting, and the characters of a query string *)

(** the value of the local [gravatar_url] of [gravatar_for_email] at the
    point where it is passed to [smart_urlquote] *)
Definition gravatar_url_unquoted (cfg : Settings) (email : string)
  (size rating : pyval) : string :=
  let gravatar_url :=
    GRAVATAR_URL_PREFIX cfg ++ "avatar/" ++ _get_gravatar_id email in
  match parameters cfg size rating with
  | [] => gravatar_url
  | _ :: _ =>
      gravatar_url ++ "?" ++ Urllib.urlencode (parameters cfg size rating)
  end.

Definition AMPERSAND : ascii := Eval cbv in ascii_of_N 38.

(** a character that [urllib.quote] never escapes *)
Definition always_safe_char (c : ascii) : bool :=
  PyStr.contains c Urllib.always_safe.

(** the characters [urllib.quote_plus] can write *)
Definition url_safe_char (c : ascii) : bool :=
  always_safe_char c || Ascii.eqb c Urllib.PLUS || Ascii.eqb c Urllib.PERCENT.

(** the characters [urllib.urlencode] can write *)
Definition query_char (c : ascii) : bool :=
  url_safe_char c || Ascii.eqb c Html.EQUALS || Ascii.eqb c AMPERSAND.

(** [s.count(c)] for a one-character [c] *)
Fixpoint count (c : ascii) (s : string) : nat :=
  match s with
  | EmptyString => O
  | String x r => ((if Ascii.eqb x c then 1 else 0) + count c r)%nat
  end.

(** a table in which a user name occurs twice *)
Definition duplicate_users : list User.t :=
  [User.make "bob" "bob@a.example"; User.make "bob" "bob@b.example"].

(* ------------------------------------------------------------------ *)
(** ** The two string types of Python 2

    A tag receives its email as a [str], which is what the definitions
    above take, or as a [unicode], the type Django gives to the fields of a
    model and to the literals of a template.  [hashlib.md5] takes bytes: a
    [unicode] is first encoded with the default codec, ASCII, which raises
    [UnicodeEncodeError] on a code point above 127. *)

Module Unicode.

(** [unicode.lower] and [unicode.upper] on a code point: the letters of
    ASCII, and the code points above 127 whose case mapping is an ASCII
    letter (U+0130 and U+212A lower to [i] and [k], U+0131 and U+017F upper
    to [I] and [S]).  The mappings between code points above 127 are left
    out: nothing below depends on them. *)
Definition tolower (c : N) : N :=
  if (65 <=? c)%N && (c <=? 90)%N then (c + 32)%N
  else if (c =? 0x130)%N then 0x69%N
  else if (c =? 0x212A)%N then 0x6B%N
  else c.

Definition toupper (c : N) : N :=
  if (97 <=? c)%N && (c <=? 122)%N then (c - 32)%N
  else if (c =? 0x131)%N then 0x49%N
  else if (c =? 0x17F)%N then 0x53%N
  else c.

Definition is_ascii (c : N) : bool := (c <? 128)%N.

(** [u.encode('ascii')] *)
Definition encode_ascii (u : list N) : result string :=
  if List.forallb is_ascii u
  then Ok (string_of_list_ascii (List.map ascii_of_N u))
  else Raise (UnicodeEncodeError
                "'ascii' codec can't encode character: ordinal not in range(128)").

(** [s.decode('ascii')] of a [str] of ASCII bytes *)
Definition of_str (s : string) : list N :=
  List.map N_of_ascii (list_ascii_of_string s).

End Unicode.

Inductive pytext : Type :=
| Str (s : string)
| Uni (u : list N).

Module Text.

Definition lower (t : pytext) : pytext :=
  match t with
  | Str s => Str (PyStr.lower s)
  | Uni u => Uni (List.map Unicode.tolower u)
  end.

Definition upper (t : pytext) : pytext :=
  match t with
  | Str s => Str (PyStr.upper s)
  | Uni u => Uni (List.map Unicode.toupper u)
  end.

(** the bytes [hashlib.md5] is given *)
Definition to_bytes (t : pytext) : result string :=
  match t with
  | Str s => Ok s
  | Uni u => Unicode.encode_ascii u
  end.

(** [hashlib.md5(email.lower()).hexdigest()] on either string type *)
Definition _get_gravatar_id (email : pytext) : result string :=
  bytes <- to_bytes (lower email) ;;
  Ok (Hashlib.hexdigest (Hashlib.md5 bytes)).

Definition gravatar_id_for_email (email : pytext) : result string :=
  _get_gravatar_id email.

End Text.

(** a text [hashlib.md5] accepts: any [str], and a [unicode] of ASCII *)
Definition encodable (t : pytext) : bool :=
  match t with
  | Str _ => true
  | Uni u => List.forallb Unicode.is_ascii u
  end.




(** an email with the dotless i, U+0131, as [unicode] *)
Definition dotless_email : pytext :=
  Uni (0x131%N :: Unicode.of_str "@x.com").

(* ------------------------------------------------------------------ *)
(** ** The URL as the spec words it

    Written from the spec, to be compared with [gravatar_for_email]: the
    effective value of an argument, the form encoding of a value (letters,
    digits and [_.-] as they are, a space as [+], any other byte as [%]
    and two hexadecimal digits), and the URL with its query parameters in
    the order default image, size, rating. *)

Definition effective (argument default : pyval) : pyval :=
  if truthy argument then argument else default.







(* ================================================================== *)
(** * Properties *)

(** ** The MD5 model on the test suite of RFC 1321 *)

Example md5_empty :
  Hashlib.hexdigest (Hashlib.md5 "") = "d41d8cd98f00b204e9800998ecf8427e".
Proof. vm_compute. reflexivity. Qed.

Example md5_a :
  Hashlib.hexdigest (Hashlib.md5 "a") = "0cc175b9c0f1b6a831c399e269772661".
Proof. vm_compute. reflexivity. Qed.

Example md5_abc :
  Hashlib.hexdigest (Hashlib.md5 "abc") = "900150983cd24fb0d6963f7d28e17f72".
Proof. vm_compute. reflexivity. Qed.

Example md5_message_digest :
  Hashlib.hexdigest (Hashlib.md5 "message digest")
  = "f96b697d7cb7938d525a2f31aaf161d0".
Proof. vm_compute. reflexivity. Qed.

Example md5_two_blocks :
  Hashlib.hexdigest (Hashlib.md5
    "ABCDEFGHIJKLMNOPQRSTUVWXYZabcdefghijklmnopqrstuvwxyz0123456789")
  = "d174ab98d277d9f5a5611c2c9f419d9f".
Proof. vm_compute. reflexivity. Qed.

Example md5_digits :
  Hashlib.hexdigest (Hashlib.md5
    "12345678901234567890123456789012345678901234567890123456789012345678901234567890")
  = "57edf4a22be3c955ac49da2e2107b67a".
Proof. vm_compute. reflexivity. Qed.

(** ** Python's [str] and [urllib] on samples *)

Example py_str_samples :
  py_str (PInt 0) = "0" /\ py_str (PInt 80) = "80"
  /\ py_str (PInt (-5)) = "-5" /\ py_str PNone = "None".
Proof. repeat split. Qed.

Example quote_plus_sample :
  Urllib.quote_plus "a b/c&d=e~f_g.h-i" = "a+b%2Fc%26d%3De%7Ef_g.h-i".
Proof. reflexivity. Qed.

Example urlencode_sample :
  Urllib.urlencode [("d", PStr "mm"); ("s", PInt 96); ("r", PStr "pg")]
  = "d=mm&s=96&r=pg".
Proof. reflexivity. Qed.

Example smart_urlquote_samples :
  Django.smart_urlquote "http://x.org/a b?c=d&e=f" = "http://x.org/a%20b?c=d&e=f"
  /\ Django.smart_urlquote "http://x.org/a%20b" = "http://x.org/a%20b"
  /\ Django.smart_urlquote "http://x.org/100%" = "http://x.org/100%25".
Proof. repeat split. Qed.

(** ** Byte strings *)

Lemma append_nil_r (s : string) : s ++ "" = s.
Proof. induction s as [|c s IH]; simpl; [reflexivity | now rewrite IH]. Qed.

Lemma append_assoc (a b c : string) : (a ++ b) ++ c = a ++ (b ++ c).
Proof. induction a as [|x a IH]; simpl; [reflexivity | now rewrite IH]. Qed.

Lemma tolower_toupper (c : ascii) :
  PyStr.tolower (PyStr.toupper c) = PyStr.tolower c.
Proof.
  destruct c as [[] [] [] [] [] [] [] []]; reflexivity.
Qed.

Lemma tolower_idem (c : ascii) :
  PyStr.tolower (PyStr.tolower c) = PyStr.tolower c.
Proof.
  destruct c as [[] [] [] [] [] [] [] []]; reflexivity.
Qed.

Lemma lower_upper (s : string) : PyStr.lower (PyStr.upper s) = PyStr.lower s.
Proof.
  unfold PyStr.lower, PyStr.upper.
  induction s as [|c s IH]; simpl.
  - reflexivity.
  - now rewrite tolower_toupper, IH.
Qed.

Lemma lower_idem (s : string) : PyStr.lower (PyStr.lower s) = PyStr.lower s.
Proof.
  unfold PyStr.lower.
  induction s as [|c s IH]; simpl.
  - reflexivity.
  - now rewrite tolower_idem, IH.
Qed.

(** ** The digest is 32 lowercase hexadecimal digits *)

Lemma hexdigit_lower (d : Z) :
  (0 <= d < 16)%Z -> PyStr.is_lower_hex (PyStr.hexdigit true d) = true.
Proof.
  intros H.
  assert (E : exists n : nat, (n < 16)%nat /\ d = Z.of_nat n)
    by (exists (Z.to_nat d); lia).
  destruct E as (n & Hn & ->); clear H.
  do 16 (destruct n as [|n]; [reflexivity|]); lia.
Qed.

Lemma hex2_lower (b : Z) (rest : string) :
  (0 <= b < 256)%Z ->
  PyStr.forallb PyStr.is_lower_hex rest = true ->
  PyStr.forallb PyStr.is_lower_hex (PyStr.hex2 true b rest) = true.
Proof.
  intros Hb Hr. unfold PyStr.hex2. simpl.
  rewrite Hr, !hexdigit_lower; [reflexivity | | ].
  - change 15%Z with (Z.ones 4). rewrite Z.land_ones by lia.
    apply Z.mod_pos_bound. reflexivity.
  - rewrite Z.shiftr_div_pow2 by lia. change (2 ^ 4)%Z with 16%Z.
    split; [apply Z.div_pos; lia | apply Z.div_lt_upper_bound; lia].
Qed.

Lemma hexdigest_lower (bs : list Z) :
  Forall (fun b => 0 <= b < 256)%Z bs ->
  PyStr.forallb PyStr.is_lower_hex (Hashlib.hexdigest bs) = true.
Proof.
  unfold Hashlib.hexdigest.
  induction 1 as [|b bs Hb _ IH]; simpl; [reflexivity|].
  now apply hex2_lower.
Qed.


Lemma le_bytes_range (n : nat) (x : Z) :
  Forall (fun b => 0 <= b < 256)%Z (Hashlib.le_bytes n x).
Proof.
  unfold Hashlib.le_bytes. apply Forall_map, Forall_forall. intros i _.
  change 255%Z with (Z.ones 8). rewrite Z.land_ones by lia.
  apply Z.mod_pos_bound. reflexivity.
Qed.


Lemma md5_range (s : string) :
  Forall (fun b => 0 <= b < 256)%Z (Hashlib.md5 s).
Proof.
  unfold Hashlib.md5. cbv zeta.
  repeat (apply Forall_app; split); apply le_bytes_range.
Qed.


(** ** The identity token *)

Example gravatar_id_someone :
  gravatar_id_for_email "Someone@Example.COM"
  = "16d113840f999444259f73bac9ab8b10".
Proof. vm_compute. reflexivity. Qed.

(** ** The URL *)

Lemma quote_plus_keys :
  Urllib.quote_plus "d" = "d" /\ Urllib.quote_plus "s" = "s"
  /\ Urllib.quote_plus "r" = "r".
Proof. repeat split. Qed.

Lemma urlencode_cons (k : string) (v : pyval) (ps : list (string * pyval)) :
  Urllib.urlencode ((k, v) :: ps)
  = match ps with
    | [] => Urllib.quote_plus k ++ "=" ++ Urllib.quote_plus (py_str v)
    | _ :: _ =>
        (Urllib.quote_plus k ++ "=" ++ Urllib.quote_plus (py_str v))
          ++ "&" ++ Urllib.urlencode ps
    end.
Proof. destruct ps; reflexivity. Qed.

Lemma parameters_eq (cfg : Settings) (size rating : pyval) :
  let d := GRAVATAR_DEFAULT_IMAGE cfg in
  let s := py_or size (GRAVATAR_DEFAULT_SIZE cfg) in
  let r := py_or rating (GRAVATAR_DEFAULT_RATING cfg) in
  parameters cfg size rating
  = ((if truthy d then [("d", d)] else [])
      ++ (if truthy s then [("s", s)] else [])
      ++ (if truthy r then [("r", r)] else []))%list.
Proof.
  cbv zeta. unfold parameters. simpl.
  destruct (truthy (GRAVATAR_DEFAULT_IMAGE cfg)),
    (truthy (py_or size (GRAVATAR_DEFAULT_SIZE cfg))),
    (truthy (py_or rating (GRAVATAR_DEFAULT_RATING cfg))); reflexivity.
Qed.

Example gravatar_for_email_48_pg :
  gravatar_for_email default_settings Django.smart_urlquote
    "someone@example.com" (PInt 48) (PStr "pg")
  = "http://www.gravatar.com/avatar/16d113840f999444259f73bac9ab8b10?s=48&r=pg".
Proof. vm_compute. reflexivity. Qed.

Example gravatar_for_email_defaults :
  gravatar_for_email default_settings Django.smart_urlquote
    "someone@example.com" PNone PNone
  = "http://www.gravatar.com/avatar/16d113840f999444259f73bac9ab8b10?s=80&r=g".
Proof. vm_compute. reflexivity. Qed.

Example gravatar_for_email_bare :
  gravatar_for_email bare_settings Django.smart_urlquote
    "someone@example.com" PNone PNone
  = "http://www.gravatar.com/avatar/16d113840f999444259f73bac9ab8b10".
Proof. vm_compute. reflexivity. Qed.

Example gravatar_for_email_default_image :
  gravatar_for_email
    (mkSettings "http://www.gravatar.com/" (PStr "http://x.org/a b.png")
                (PStr "g") (PInt 80) (PStr "gravatar"))
    Django.smart_urlquote "someone@example.com" (PInt 0) (PStr "")
  = "http://www.gravatar.com/avatar/16d113840f999444259f73bac9ab8b10?d=http%3A%2F%2Fx.org%2Fa+b.png&s=80&r=g".
Proof. vm_compute. reflexivity. Qed.

(** ** A falsy size *)

Lemma py_or_falsy (a b : pyval) : truthy a = false -> py_or a b = b.
Proof. unfold py_or. now intros ->. Qed.

Lemma py_or_truthy (a b : pyval) : truthy a = true -> py_or a b = a.
Proof. unfold py_or. now intros ->. Qed.

(** C4, as stated, fails: under the default settings a size of 0 does not
    remove the [s=] item; the URL carries [s=80]. *)
Lemma size_zero_keeps_s_item :
  In "s" (List.map fst (parameters default_settings (PInt 0) PNone))
  /\ gravatar_for_email default_settings Django.smart_urlquote
       "someone@example.com" (PInt 0) PNone
     = "http://www.gravatar.com/avatar/16d113840f999444259f73bac9ab8b10?s=80&r=g".
Proof. split; [simpl; auto | vm_compute; reflexivity]. Qed.

(** C4, amended: when the size passed is falsy (0, the empty string or
    [None]) the configured default size takes its place, so the URL is the
    one obtained without a size; it has an [s=] item exactly when the
    configured default size is truthy, and that item carries the default. *)
Theorem falsy_size_uses_default
  (cfg : Settings) (smart_urlquote : string -> string)
  (email : string) (size rating : pyval) :
  truthy size = false ->
  gravatar_for_email cfg smart_urlquote email size rating
    = gravatar_for_email cfg smart_urlquote email PNone rating
  /\ parameters cfg size rating = parameters cfg PNone rating
  /\ (In "s" (List.map fst (parameters cfg size rating))
      <-> truthy (GRAVATAR_DEFAULT_SIZE cfg) = true)
  /\ (forall v, In ("s", v) (parameters cfg size rating) ->
                v = GRAVATAR_DEFAULT_SIZE cfg).
Proof.
  intros Hs.
  assert (P : parameters cfg size rating = parameters cfg PNone rating).
  { unfold parameters. now rewrite (py_or_falsy size), (py_or_falsy PNone). }
  split; [|split; [|split]].
  - unfold gravatar_for_email. now rewrite P.
  - exact P.
  - rewrite parameters_eq. cbv zeta. rewrite (py_or_falsy size) by exact Hs.
    destruct (truthy (GRAVATAR_DEFAULT_IMAGE cfg)),
      (truthy (GRAVATAR_DEFAULT_SIZE cfg)),
      (truthy (py_or rating (GRAVATAR_DEFAULT_RATING cfg)));
      simpl; split; intros H; try reflexivity; try discriminate; auto;
      repeat (destruct H as [H | H]; try discriminate H); contradiction.
  - intros v. rewrite parameters_eq. cbv zeta.
    rewrite (py_or_falsy size) by exact Hs.
    destruct (truthy (GRAVATAR_DEFAULT_IMAGE cfg)),
      (truthy (GRAVATAR_DEFAULT_SIZE cfg)),
      (truthy (py_or rating (GRAVATAR_DEFAULT_RATING cfg)));
      simpl; intros H;
      repeat (destruct H as [H | H]; try discriminate H);
      try contradiction; now inversion H.
Qed.

Lemma falsy_size_uses_default_witness :
  truthy (PInt 0) = false
  /\ gravatar_for_email default_settings Django.smart_urlquote
       "someone@example.com" (PInt 0) (PStr "pg")
     = gravatar_for_email default_settings Django.smart_urlquote
         "someone@example.com" PNone (PStr "pg").
Proof.
  split; [reflexivity|].
  apply (falsy_size_uses_default default_settings Django.smart_urlquote
           "someone@example.com" (PInt 0) (PStr "pg")).
  reflexivity.
Defined.

(** ** The image element *)

Lemma contains_append (c : ascii) (a b : string) :
  PyStr.contains c (a ++ b) = PyStr.contains c a || PyStr.contains c b.
Proof.
  unfold PyStr.contains.
  induction a as [|x a IH]; simpl; [reflexivity|].
  now rewrite IH, orb_assoc.
Qed.

Lemma no_dquote_append (a b : string) :
  Html.no_dquote (a ++ b) = Html.no_dquote a && Html.no_dquote b.
Proof. unfold Html.no_dquote. now rewrite contains_append, negb_orb. Qed.

Lemma scan_value (v : string) :
  forall n v0 rest acc,
    Html.no_dquote v = true ->
    Html.scan (v ++ String DQUOTE rest) (Html.InValue n v0) acc
    = Html.scan rest Html.Between ((n, v0 ++ v) :: acc).
Proof.
  induction v as [|c v IH]; intros n v0 rest acc Hv.
  - simpl. now rewrite append_nil_r.
  - unfold Html.no_dquote, PyStr.contains in Hv. cbn [PyStr.existsb] in Hv.
    rewrite negb_orb in Hv. apply andb_true_iff in Hv as [Hc Hv].
    cbn [append Html.scan]. rewrite Ascii.eqb_sym.
    apply negb_true_iff in Hc. rewrite Hc.
    rewrite IH by exact Hv. unfold Html.snoc.
    now rewrite append_assoc.
Qed.

Lemma scan_name (name : string) :
  forall n0 rest acc,
    PyStr.forallb Html.is_letter name = true ->
    Html.scan (name ++ rest) (Html.InName n0) acc
    = Html.scan rest (Html.InName (n0 ++ name)) acc.
Proof.
  induction name as [|c name IH]; intros n0 rest acc Hn.
  - simpl. now rewrite append_nil_r.
  - simpl in Hn. apply andb_true_iff in Hn as [Hc Hn].
    cbn [append Html.scan]. rewrite Hc, IH by exact Hn.
    unfold Html.snoc. now rewrite append_assoc.
Qed.

Lemma scan_attr (n v rest : string) (acc : list Html.attr) :
  Html.is_name n = true ->
  Html.no_dquote v = true ->
  Html.scan (Html.render (n, v) ++ rest) Html.Between acc
  = Html.scan rest Html.Between ((n, v) :: acc).
Proof.
  intros Hn Hv. apply andb_true_iff in Hn as [Hl Hne].
  unfold Html.render, dq. cbn [fst snd].
  rewrite !append_assoc. cbn [append Html.scan].
  change (Ascii.eqb " " Html.SPACE) with true. cbv iota.
  rewrite scan_name by exact Hl. cbn [append Html.scan].
  change (Html.is_letter "=") with false. cbv iota.
  change (Ascii.eqb "=" Html.EQUALS) with true. rewrite Hne. cbn [andb].
  change (Ascii.eqb DQUOTE DQUOTE) with true. cbv iota.
  now rewrite scan_value by exact Hv.
Qed.

Lemma scan_render_all (attrs : list Html.attr) :
  forall acc,
    Forall attr_ok attrs ->
    Html.scan (Html.render_all attrs) Html.Between acc
    = Some (rev acc ++ attrs)%list.
Proof.
  induction attrs as [|[n v] attrs IH]; intros acc H.
  - simpl. now rewrite app_nil_r.
  - inversion H as [|? ? [Hn Hv] Hr]; subst.
    cbn [Html.render_all]. rewrite scan_attr by assumption.
    rewrite IH by exact Hr. simpl. now rewrite <- app_assoc.
Qed.

(** An element written from well-formed attributes reads back as them. *)
Lemma parse_render_img (attrs : list Html.attr) :
  Forall attr_ok attrs ->
  Html.parse_img (Html.render_img attrs) = Some attrs.
Proof.
  intros H. unfold Html.render_img. cbn [append Html.parse_img].
  now rewrite scan_render_all.
Qed.

(** The text of [_wrap_img_tag] is the element with its attributes. *)
Lemma _wrap_img_tag_render
  (cfg : Settings) (smart_urlquote : string -> string)
  (url info : string) (size : pyval) :
  _wrap_img_tag cfg smart_urlquote url info size
  = Html.render_img (img_attrs cfg (smart_urlquote url) info size).
Proof.
  unfold _wrap_img_tag, Html.render_img, img_attrs, _imgclass_attr.
  destruct (truthy (GRAVATAR_IMG_CLASS cfg));
    cbn [app Html.render_all]; unfold Html.render; cbn [fst snd];
    rewrite ?append_assoc; cbn [append]; reflexivity.
Qed.

Lemma img_attrs_ok
  (cfg : Settings) (src info : string) (size : pyval) :
  Html.no_dquote src = true ->
  Html.no_dquote info = true ->
  Html.no_dquote (py_str size) = true ->
  Html.no_dquote (py_str (GRAVATAR_IMG_CLASS cfg)) = true ->
  Forall attr_ok (img_attrs cfg src info size).
Proof.
  intros Hu Hi Hs Hc. unfold img_attrs.
  assert (Ha : Html.no_dquote ("Avatar for " ++ info) = true)
    by (rewrite no_dquote_append, Hi; reflexivity).
  destruct (truthy (GRAVATAR_IMG_CLASS cfg)); cbn [app];
    repeat (apply Forall_cons; [split; [reflexivity | assumption] |]);
    apply Forall_nil.
Qed.

(** C8, as stated, fails.  The [alt] attribute is not the text passed in
    but [Avatar for] followed by it; and the text is inserted as it is, so
    that a text with a double quote changes the attributes of the element:
    here it adds a second [src]. *)
Lemma _wrap_img_tag_not_as_specified :
  ~ img_element default_settings
      (Django.smart_urlquote "http://x/a") "bob" (PInt 48)
      (_wrap_img_tag default_settings Django.smart_urlquote
         "http://x/a" "bob" (PInt 48))
  /\ option_map (Html.values "alt")
       (Html.parse_img
          (_wrap_img_tag default_settings Django.smart_urlquote
             "http://x/a" "bob" (PInt 48)))
     = Some ["Avatar for bob"]
  /\ option_map (Html.values "src")
       (Html.parse_img
          (_wrap_img_tag default_settings Django.smart_urlquote
             "http://x/a" ("x" ++ dq ++ " src=" ++ dq ++ "y") (PInt 48)))
     = Some ["http://x/a"; "y"].
Proof.
  split; [|split].
  - intros (attrs & Hp & _ & Halt & _).
    vm_compute in Hp. injection Hp as <-.
    vm_compute in Halt. discriminate Halt.
  - vm_compute. reflexivity.
  - vm_compute. reflexivity.
Qed.

(** C8, amended: for every url, text and size, when the quoted URL, the
    text, the size as text and the configured class contain no double
    quote, [_wrap_img_tag] writes a well-formed self-closing [<img>]
    element with one [src], the quoted URL, one [alt], which is
    [Avatar for] followed by the text, [height] and [width] that are both
    the size, and a [class] exactly when a class is configured. *)
Theorem _wrap_img_tag_well_formed
  (cfg : Settings) (smart_urlquote : string -> string)
  (url info : string) (size : pyval) :
  Html.no_dquote (smart_urlquote url) = true ->
  Html.no_dquote info = true ->
  Html.no_dquote (py_str size) = true ->
  Html.no_dquote (py_str (GRAVATAR_IMG_CLASS cfg)) = true ->
  img_element cfg (smart_urlquote url) ("Avatar for " ++ info) size
    (_wrap_img_tag cfg smart_urlquote url info size).
Proof.
  intros Hu Hi Hs Hc.
  exists (img_attrs cfg (smart_urlquote url) info size).
  split.
  - rewrite _wrap_img_tag_render. now apply parse_render_img, img_attrs_ok.
  - unfold img_attrs, Html.values.
    destruct (truthy (GRAVATAR_IMG_CLASS cfg)); cbn;
      repeat split; try reflexivity; try discriminate; congruence.
Qed.

Lemma _wrap_img_tag_well_formed_witness :
  Html.no_dquote (Django.smart_urlquote "http://x/a?s=96&r=pg") = true
  /\ Html.no_dquote "someone@example.com" = true
  /\ Html.no_dquote (py_str (PInt 48)) = true
  /\ Html.no_dquote (py_str (GRAVATAR_IMG_CLASS default_settings)) = true
  /\ img_element default_settings
       (Django.smart_urlquote "http://x/a?s=96&r=pg")
       ("Avatar for " ++ "someone@example.com") (PInt 48)
       (_wrap_img_tag default_settings Django.smart_urlquote
          "http://x/a?s=96&r=pg" "someone@example.com" (PInt 48)).
Proof.
  repeat (split; [reflexivity|]).
  apply (_wrap_img_tag_well_formed default_settings Django.smart_urlquote
           "http://x/a?s=96&r=pg" "someone@example.com" (PInt 48));
    reflexivity.
Defined.

(** ** The retina tags *)

(** C5: for every email, size and rating, the retina tags are the normal
    image tags except for the size the URL is built with, which is
    [size*2]: on every size, [gravatar_retina_img_for_email] is the element
    written with the size itself around the URL built with [size*2].  For
    an integer size [n] it is the element whose [src] is the URL for [2*n]
    and whose [height] and [width] are [n], where
    [gravatar_img_for_email] builds the URL for [n]; the same holds of the
    two [*_for_user] tags on a user object, and on a user name the two fail
    alike.  With 48 and [pg] the URL has [s=96] and the element has 48 as
    its dimensions. *)
Theorem retina_doubles_url_size
  (cfg : Settings) (smart_urlquote : string -> string) (users : list User.t)
  (email : string) (u : User.t) (name : string) (n : Z)
  (size rating : pyval) :
  let url k := gravatar_for_email cfg smart_urlquote email (PInt k) rating in
  let uurl k :=
    gravatar_for_email cfg smart_urlquote (User.email u) (PInt k) rating in
  gravatar_retina_img_for_email cfg smart_urlquote email size rating
    = (size2 <- py_mul2 size ;;
       Ok (_wrap_img_tag cfg smart_urlquote
             (gravatar_for_email cfg smart_urlquote email size2 rating)
             email size))
  /\ gravatar_retina_img_for_email cfg smart_urlquote email (PInt n) rating
    = Ok (Html.render_img
            (img_attrs cfg (smart_urlquote (url (2 * n)%Z)) email (PInt n)))
  /\ gravatar_img_for_email cfg smart_urlquote email (PInt n) rating
    = Ok (Html.render_img
            (img_attrs cfg (smart_urlquote (url n)) email (PInt n)))
  /\ gravatar_retina_img_for_user cfg smart_urlquote users
       (UserObj u) (PInt n) rating
    = Ok (Html.render_img
            (img_attrs cfg (smart_urlquote (uurl (2 * n)%Z))
               (User.username u) (PInt n)))
  /\ gravatar_img_for_user cfg smart_urlquote users
       (UserObj u) (PInt n) rating
    = Ok (Html.render_img
            (img_attrs cfg (smart_urlquote (uurl n))
               (User.username u) (PInt n)))
  /\ gravatar_retina_img_for_user cfg smart_urlquote users
       (UserName name) (PInt n) rating
    = gravatar_img_for_user cfg smart_urlquote users
        (UserName name) (PInt n) rating
  /\ gravatar_retina_img_for_email default_settings Django.smart_urlquote
       "someone@example.com" (PInt 48) (PStr "pg")
    = Ok (Html.render_img
            [ ("src", "http://www.gravatar.com/avatar/16d113840f999444259f73bac9ab8b10?s=96&r=pg");
              ("class", "gravatar");
              ("alt", "Avatar for someone@example.com");
              ("height", "48");
              ("width", "48") ]).
Proof.
  cbv zeta.
  unfold gravatar_retina_img_for_email, gravatar_img_for_email,
    gravatar_retina_img_for_user, gravatar_img_for_user, gravatar_for_user.
  split; [reflexivity|].
  cbn [py_mul2 bind _get_user getattr_username].
  rewrite <- !_wrap_img_tag_render, (Z.mul_comm 2 n).
  repeat (split; [reflexivity|]).
  split.
  - destruct (match objects_get users name with
              | Raise DoesNotExist => Raise (Exception "Bad user for gravatar.")
              | r => r
              end); reflexivity.
  - vm_compute. reflexivity.
Qed.

(** C10: a retina tag called without a size raises a [TypeError], whatever
    the email, the user and the rating are, since [size*2] is evaluated on
    the argument as passed; the other image tags accept a missing size and
    return an element. *)
Theorem retina_without_size_raises
  (cfg : Settings) (smart_urlquote : string -> string) (users : list User.t)
  (email : string) (user : userarg) (u : User.t) (rating : pyval) :
  let e := TypeError "unsupported operand type(s) for *: 'NoneType' and 'int'" in
  gravatar_retina_img_for_email cfg smart_urlquote email PNone rating
    = Raise e
  /\ gravatar_retina_img_for_user cfg smart_urlquote users user PNone rating
    = Raise e
  /\ gravatar_img_for_email cfg smart_urlquote email PNone rating
    = Ok (_wrap_img_tag cfg smart_urlquote
            (gravatar_for_email cfg smart_urlquote email PNone rating)
            email PNone)
  /\ gravatar_img_for_user cfg smart_urlquote users (UserObj u) PNone rating
    = Ok (_wrap_img_tag cfg smart_urlquote
            (gravatar_for_email cfg smart_urlquote (User.email u) PNone rating)
            (User.username u) PNone).
Proof. cbv zeta. repeat split. Qed.

Example gravatar_img_for_email_no_size :
  gravatar_img_for_email default_settings Django.smart_urlquote
    "someone@example.com" PNone PNone
  = Ok (Html.render_img
          [ ("src", "http://www.gravatar.com/avatar/16d113840f999444259f73bac9ab8b10?s=80&r=g");
            ("class", "gravatar");
            ("alt", "Avatar for someone@example.com");
            ("height", "None");
            ("width", "None") ]).
Proof. vm_compute. reflexivity. Qed.

(** ** Resolving the user *)

Lemma filter_no_match (users : list User.t) (name : string) :
  (forall u, In u users -> User.username u <> name) ->
  filter (fun u => User.username u =? name) users = [].
Proof.
  induction users as [|a l IH]; intros H; simpl; [reflexivity|].
  destruct (String.eqb_spec (User.username a) name) as [E | _].
  - exfalso. apply (H a); [now left | exact E].
  - apply IH. intros u Hu. apply H. now right.
Qed.

Lemma filter_one_match (users : list User.t) (name : string) (u : User.t) :
  NoDup (List.map User.username users) ->
  In u users ->
  User.username u = name ->
  filter (fun u => User.username u =? name) users = [u].
Proof.
  induction users as [|a l IH]; intros Hnd Hin Hname; [contradiction|].
  simpl in Hnd. inversion Hnd as [|? ? Hnotin Hnd']; subst.
  simpl. destruct Hin as [-> | Hin].
  - rewrite String.eqb_refl. f_equal. apply filter_no_match.
    intros v Hv E. apply Hnotin. rewrite <- E. now apply in_map.
  - destruct (String.eqb_spec (User.username a) (User.username u)) as [E | _].
    + exfalso. apply Hnotin. rewrite E. now apply in_map.
    + now apply IH.
Qed.

(** C6: a user name that no row of the user table carries makes the
    resolution fail with the exception [Bad user for gravatar.]; under the
    uniqueness of user names, the name of a row resolves to that row and to
    its email; and a user object is returned as it is, whatever the table
    holds. *)
Theorem _get_user_resolves (users : list User.t) :
  (forall name,
      (forall u, In u users -> User.username u <> name) ->
      _get_user users (UserName name)
        = Raise (Exception "Bad user for gravatar.")
      /\ resolveEmail users (UserName name)
        = Raise (Exception "Bad user for gravatar."))
  /\ (forall name u,
      NoDup (List.map User.username users) ->
      In u users ->
      User.username u = name ->
      _get_user users (UserName name) = Ok u
      /\ resolveEmail users (UserName name) = Ok (User.email u))
  /\ (forall u,
      _get_user users (UserObj u) = Ok u
      /\ resolveEmail users (UserObj u) = Ok (User.email u)).
Proof.
  split; [|split].
  - intros name H. unfold resolveEmail, _get_user, objects_get.
    now rewrite filter_no_match.
  - intros name u Hnd Hin Hname. unfold resolveEmail, _get_user, objects_get.
    now rewrite (filter_one_match users name u).
  - intros u. split; reflexivity.
Qed.

Lemma _get_user_resolves_witness :
  (forall u, In u sample_users -> User.username u <> "nobody")
  /\ NoDup (List.map User.username sample_users)
  /\ In jtauber sample_users
  /\ User.username jtauber = "jtauber"
  /\ resolveEmail sample_users (UserName "nobody")
     = Raise (Exception "Bad user for gravatar.")
  /\ resolveEmail sample_users (UserName "jtauber")
     = Ok "jtauber@example.com".
Proof.
  assert (H1 : forall u, In u sample_users -> User.username u <> "nobody").
  { intros u [<- | [<- | []]]; discriminate. }
  assert (H2 : NoDup (List.map User.username sample_users)).
  { simpl. repeat constructor; simpl; intuition discriminate. }
  assert (H3 : In jtauber sample_users) by (simpl; auto).
  destruct (_get_user_resolves sample_users) as (Hno & Hyes & _).
  split; [exact H1|]. split; [exact H2|]. split; [exact H3|].
  split; [reflexivity|]. split.
  - exact (proj2 (Hno "nobody" H1)).
  - exact (proj2 (Hyes "jtauber" jtauber H2 H3 eq_refl)).
Defined.

(** ** The tags for a user *)

(** The tags that return a token, a URL or a profile resolve the user and
    go on as the tags for an email do. *)
Lemma for_user_compose
  (cfg : Settings) (smart_urlquote : string -> string) (users : list User.t)
  (user : userarg) (size rating : pyval) :
  gravatar_id_for_user users user
    = (email <- resolveEmail users user ;; Ok (gravatar_id_for_email email))
  /\ gravatar_for_user cfg smart_urlquote users user size rating
    = (email <- resolveEmail users user ;;
       Ok (gravatar_for_email cfg smart_urlquote email size rating)).
Proof.
  unfold gravatar_id_for_user, gravatar_for_user, resolveEmail.
  destruct (_get_user users user); split; reflexivity.
Qed.

Lemma profile_for_user_compose
  (cfg : Settings) (users : list User.t) (urlopen : string -> result string)
  (JSON : Type) (load : string -> result JSON) (user : userarg) :
  gravatar_profile_for_user cfg users urlopen load user
  = match resolveEmail users user with
    | Ok email => gravatar_profile_for_email cfg urlopen load email
    | Raise e => ([], Raise e)
    end.
Proof.
  unfold gravatar_profile_for_user, resolveEmail, io_bind, io_lift.
  destruct (_get_user users user) as [u | e]; cbn [bind].
  - now destruct (gravatar_profile_for_email cfg urlopen load (User.email u)).
  - reflexivity.
Qed.

(** On a user object the image tags are the image tags for the email of
    the user, written with the user name. *)
Lemma img_for_user_object
  (cfg : Settings) (smart_urlquote : string -> string) (users : list User.t)
  (u : User.t) (size rating : pyval) :
  gravatar_img_for_user cfg smart_urlquote users (UserObj u) size rating
  = Ok (_wrap_img_tag cfg smart_urlquote
          (gravatar_for_email cfg smart_urlquote (User.email u) size rating)
          (User.username u) size).
Proof. reflexivity. Qed.

(** C7 does not hold of the two image tags: given a user name they never
    return an element, since [user.username] is read from the argument and
    not from the user found.  For the user [jtauber] of the table,
    [gravatar_img_for_user] and [gravatar_retina_img_for_user] raise an
    [AttributeError] on the name, where the name resolves to the email and
    the user object yields the element. *)
Theorem img_for_user_rejects_user_name
  (cfg : Settings) (smart_urlquote : string -> string) (users : list User.t)
  (name : string) (size rating : pyval) :
  let e := AttributeError "'str' object has no attribute 'username'" in
  (exists e',
      gravatar_img_for_user cfg smart_urlquote users
        (UserName name) size rating = Raise e')
  /\ (exists e',
      gravatar_retina_img_for_user cfg smart_urlquote users
        (UserName name) size rating = Raise e')
  /\ gravatar_img_for_user default_settings Django.smart_urlquote
       sample_users (UserName "jtauber") (PInt 48) (PStr "pg") = Raise e
  /\ gravatar_retina_img_for_user default_settings Django.smart_urlquote
       sample_users (UserName "jtauber") (PInt 48) (PStr "pg") = Raise e
  /\ resolveEmail sample_users (UserName "jtauber")
     = Ok "jtauber@example.com"
  /\ gravatar_img_for_user default_settings Django.smart_urlquote
       sample_users (UserObj jtauber) (PInt 48) (PStr "pg")
     = Ok (Html.render_img
             [ ("src", "http://www.gravatar.com/avatar/e75005d5a032a4601c8908fbe1e3bed4?s=48&r=pg");
               ("class", "gravatar");
               ("alt", "Avatar for jtauber");
               ("height", "48");
               ("width", "48") ]).
Proof.
  cbv zeta. split; [|split].
  - unfold gravatar_img_for_user, gravatar_for_user.
    destruct (_get_user users (UserName name));
      cbn [bind getattr_username]; eauto.
  - unfold gravatar_retina_img_for_user, gravatar_for_user.
    destruct (py_mul2 size); cbn [bind]; [|eauto].
    destruct (_get_user users (UserName name));
      cbn [bind getattr_username]; eauto.
  - repeat split; vm_compute; reflexivity.
Qed.

(** ** The profile *)

(** C9: for every email, [gravatar_profile_for_email] makes one request,
    for [<prefix><token>.json], and returns the body decoded; an exception
    raised by the fetch or by the decoder is the outcome of the tag. *)
Theorem gravatar_profile_for_email_fetch
  (cfg : Settings) (urlopen : string -> result string)
  (JSON : Type) (load : string -> result JSON) (email : string) :
  let url :=
    GRAVATAR_URL_PREFIX cfg ++ gravatar_id_for_email email ++ ".json" in
  gravatar_profile_for_email cfg urlopen load email
  = ([url],
     match urlopen url with
     | Ok body => load body
     | Raise e => Raise e
     end).
Proof.
  cbv zeta. unfold gravatar_profile_for_email, gravatar_id_for_email.
  cbv zeta. unfold io_bind, io_lift.
  destruct (urlopen _); reflexivity.
Qed.

Example gravatar_profile_found :
  gravatar_profile_for_email default_settings sample_urlopen sample_load
    "Someone@Example.com"
  = (["http://www.gravatar.com/16d113840f999444259f73bac9ab8b10.json"],
     Ok "{}").
Proof. vm_compute. reflexivity. Qed.

Example gravatar_profile_not_json :
  gravatar_profile_for_user default_settings sample_users
    sample_urlopen sample_load (UserName "jtauber")
  = (["http://www.gravatar.com/e75005d5a032a4601c8908fbe1e3bed4.json"],
     Raise (ValueError "No JSON object could be decoded")).
Proof. vm_compute. reflexivity. Qed.

Example gravatar_profile_unreachable :
  gravatar_profile_for_user default_settings sample_users
    sample_urlopen sample_load (UserName "alice")
  = (["http://www.gravatar.com/c160f8cc69a4f0bf2b0362752353d060.json"],
     Raise (IOError "[Errno socket error] connection refused")).
Proof. vm_compute. reflexivity. Qed.

Example gravatar_profile_no_user :
  gravatar_profile_for_user default_settings sample_users
    sample_urlopen sample_load (UserName "nobody")
  = ([], Raise (Exception "Bad user for gravatar.")).
Proof. vm_compute. reflexivity. Qed.

(* ================================================================== *)
(** * Further properties of the tags *)

(** ** The user table *)

Lemma objects_get_unknown (users : list User.t) (name : string) :
  (forall u, In u users -> User.username u <> name) ->
  _get_user users (UserName name)
  = Raise (Exception "Bad user for gravatar.").
Proof.
  intros H. unfold _get_user, objects_get. now rewrite filter_no_match.
Qed.

Lemma objects_get_known (users : list User.t) (u : User.t) :
  NoDup (List.map User.username users) ->
  In u users ->
  _get_user users (UserName (User.username u)) = Ok u.
Proof.
  intros Hnd Hin. unfold _get_user, objects_get.
  now rewrite (filter_one_match users (User.username u) u).
Qed.

Lemma objects_get_duplicate
  (users : list User.t) (name : string) (u1 u2 : User.t) :
  In u1 users -> In u2 users -> u1 <> u2 ->
  User.username u1 = name -> User.username u2 = name ->
  _get_user users (UserName name) = Raise MultipleObjectsReturned.
Proof.
  intros H1 H2 Hne E1 E2. unfold _get_user, objects_get.
  assert (F1 : In u1 (filter (fun u => User.username u =? name) users))
    by (apply filter_In; split; [exact H1 | now apply String.eqb_eq]).
  assert (F2 : In u2 (filter (fun u => User.username u =? name) users))
    by (apply filter_In; split; [exact H2 | now apply String.eqb_eq]).
  destruct (filter (fun u => User.username u =? name) users)
    as [|a [|b l]].
  - contradiction.
  - exfalso. apply Hne.
    destruct F1 as [<- | []], F2 as [<- | []]. reflexivity.
  - reflexivity.
Qed.

(** X1: when user names are unique in the table, the token and the URL for
    the name of a row are the token and the URL for the email of that row,
    as they are for the row passed as an object. *)
Theorem for_user_known
  (cfg : Settings) (smart_urlquote : string -> string) (users : list User.t)
  (u : User.t) (size rating : pyval) :
  NoDup (List.map User.username users) ->
  In u users ->
  gravatar_id_for_user users (UserName (User.username u))
    = Ok (gravatar_id_for_email (User.email u))
  /\ gravatar_for_user cfg smart_urlquote users
       (UserName (User.username u)) size rating
    = Ok (gravatar_for_email cfg smart_urlquote (User.email u) size rating)
  /\ gravatar_for_user cfg smart_urlquote users
       (UserName (User.username u)) size rating
    = gravatar_for_user cfg smart_urlquote users (UserObj u) size rating.
Proof.
  intros Hnd Hin.
  unfold gravatar_id_for_user, gravatar_for_user.
  rewrite (objects_get_known users u Hnd Hin).
  repeat split.
Qed.

Lemma for_user_known_witness :
  NoDup (List.map User.username sample_users)
  /\ In jtauber sample_users
  /\ gravatar_id_for_user sample_users (UserName "jtauber")
     = Ok "e75005d5a032a4601c8908fbe1e3bed4".
Proof.
  assert (H2 : NoDup (List.map User.username sample_users)).
  { simpl. repeat constructor; simpl; intuition discriminate. }
  assert (H3 : In jtauber sample_users) by (simpl; auto).
  split; [exact H2|]. split; [exact H3|].
  exact (proj1 (for_user_known default_settings Django.smart_urlquote
                  sample_users jtauber (PInt 48) (PStr "pg") H2 H3)).
Defined.

(** X2: a user name that no row carries makes every tag for a user raise
    the exception [Bad user for gravatar.]: the token, the URL, the two
    image tags (the retina one for an integer size), and the profile tag,
    which then requests nothing. *)
Theorem for_user_unknown
  (cfg : Settings) (smart_urlquote : string -> string) (users : list User.t)
  (urlopen : string -> result string)
  (JSON : Type) (load : string -> result JSON)
  (name : string) (n : Z) (size rating : pyval) :
  (forall u, In u users -> User.username u <> name) ->
  let bad := Exception "Bad user for gravatar." in
  gravatar_id_for_user users (UserName name) = Raise bad
  /\ gravatar_for_user cfg smart_urlquote users (UserName name) size rating
     = Raise bad
  /\ gravatar_img_for_user cfg smart_urlquote users (UserName name)
       size rating = Raise bad
  /\ gravatar_retina_img_for_user cfg smart_urlquote users (UserName name)
       (PInt n) rating = Raise bad
  /\ gravatar_profile_for_user cfg users urlopen load (UserName name)
     = ([], Raise bad).
Proof.
  intros H. cbv zeta.
  unfold gravatar_id_for_user, gravatar_img_for_user,
    gravatar_retina_img_for_user, gravatar_for_user,
    gravatar_profile_for_user.
  rewrite (objects_get_unknown users name H).
  repeat split.
Qed.

Lemma for_user_unknown_witness :
  (forall u, In u sample_users -> User.username u <> "nobody")
  /\ gravatar_profile_for_user default_settings sample_users
       sample_urlopen sample_load (UserName "nobody")
     = ([], Raise (Exception "Bad user for gravatar.")).
Proof.
  assert (H1 : forall u, In u sample_users -> User.username u <> "nobody").
  { intros u [<- | [<- | []]]; discriminate. }
  split; [exact H1|].
  apply (for_user_unknown default_settings Django.smart_urlquote
           sample_users sample_urlopen string sample_load
           "nobody" 48%Z (PInt 48) (PStr "pg") H1).
Defined.

(** X3: a user name that two different rows carry is not resolved: the
    [MultipleObjectsReturned] of the lookup is not the exception [_get_user]
    catches, so it is what [_get_user] and the tags for a user raise; the
    profile tag requests nothing. *)
Theorem for_user_duplicate
  (cfg : Settings) (smart_urlquote : string -> string) (users : list User.t)
  (urlopen : string -> result string)
  (JSON : Type) (load : string -> result JSON)
  (name : string) (u1 u2 : User.t) (size rating : pyval) :
  In u1 users -> In u2 users -> u1 <> u2 ->
  User.username u1 = name -> User.username u2 = name ->
  _get_user users (UserName name) = Raise MultipleObjectsReturned
  /\ gravatar_id_for_user users (UserName name)
     = Raise MultipleObjectsReturned
  /\ gravatar_for_user cfg smart_urlquote users (UserName name) size rating
     = Raise MultipleObjectsReturned
  /\ gravatar_profile_for_user cfg users urlopen load (UserName name)
     = ([], Raise MultipleObjectsReturned).
Proof.
  intros H1 H2 Hne E1 E2.
  unfold gravatar_id_for_user, gravatar_for_user, gravatar_profile_for_user.
  rewrite (objects_get_duplicate users name u1 u2 H1 H2 Hne E1 E2).
  repeat split.
Qed.

Lemma for_user_duplicate_witness :
  In (User.make "bob" "bob@a.example") duplicate_users
  /\ In (User.make "bob" "bob@b.example") duplicate_users
  /\ User.make "bob" "bob@a.example" <> User.make "bob" "bob@b.example"
  /\ _get_user duplicate_users (UserName "bob")
     = Raise MultipleObjectsReturned.
Proof.
  assert (H1 : In (User.make "bob" "bob@a.example") duplicate_users)
    by (simpl; auto).
  assert (H2 : In (User.make "bob" "bob@b.example") duplicate_users)
    by (simpl; auto).
  assert (H3 : User.make "bob" "bob@a.example"
               <> User.make "bob" "bob@b.example") by discriminate.
  split; [exact H1|]. split; [exact H2|]. split; [exact H3|].
  exact (proj1 (for_user_duplicate default_settings Django.smart_urlquote
                  duplicate_users sample_urlopen string sample_load "bob"
                  _ _ (PInt 48) (PStr "pg") H1 H2 H3 eq_refl eq_refl)).
Defined.

(** X4: when user names are unique in the table, the profile tag for the
    name of a row makes one request, for [<prefix><token>.json] with the
    token of the email of that row, and its outcome is the decoded body or
    the exception of the fetch or of the decoder. *)
Theorem profile_for_user_known
  (cfg : Settings) (users : list User.t) (urlopen : string -> result string)
  (JSON : Type) (load : string -> result JSON) (u : User.t) :
  NoDup (List.map User.username users) ->
  In u users ->
  let url :=
    GRAVATAR_URL_PREFIX cfg
      ++ gravatar_id_for_email (User.email u) ++ ".json" in
  gravatar_profile_for_user cfg users urlopen load
    (UserName (User.username u))
  = ([url],
     match urlopen url with
     | Ok body => load body
     | Raise e => Raise e
     end).
Proof.
  intros Hnd Hin. cbv zeta.
  unfold gravatar_profile_for_user.
  rewrite (objects_get_known users u Hnd Hin).
  unfold gravatar_profile_for_email, gravatar_id_for_email, io_bind, io_lift.
  cbv zeta. destruct (urlopen _); reflexivity.
Qed.

Lemma profile_for_user_known_witness :
  NoDup (List.map User.username sample_users)
  /\ In jtauber sample_users
  /\ gravatar_profile_for_user default_settings sample_users
       sample_urlopen sample_load (UserName "jtauber")
     = (["http://www.gravatar.com/e75005d5a032a4601c8908fbe1e3bed4.json"],
        Raise (ValueError "No JSON object could be decoded")).
Proof.
  assert (H2 : NoDup (List.map User.username sample_users)).
  { simpl. repeat constructor; simpl; intuition discriminate. }
  assert (H3 : In jtauber sample_users) by (simpl; auto).
  split; [exact H2|]. split; [exact H3|].
  exact (profile_for_user_known default_settings sample_users
           sample_urlopen string sample_load jtauber H2 H3).
Defined.

(** ** The arguments of the URL *)

Lemma gravatar_for_email_unquoted
  (cfg : Settings) (smart_urlquote : string -> string)
  (email : string) (size rating : pyval) :
  gravatar_for_email cfg smart_urlquote email size rating
  = smart_urlquote (gravatar_url_unquoted cfg email size rating).
Proof.
  unfold gravatar_for_email, gravatar_url_unquoted. cbv zeta.
  now destruct (parameters cfg size rating).
Qed.

(** X5: two emails that differ only in the case of their letters have the
    same token, the same URL for every size and rating, and the same
    profile request. *)
Theorem same_email_up_to_case
  (cfg : Settings) (smart_urlquote : string -> string)
  (urlopen : string -> result string)
  (JSON : Type) (load : string -> result JSON)
  (e1 e2 : string) (size rating : pyval) :
  PyStr.lower e1 = PyStr.lower e2 ->
  gravatar_id_for_email e1 = gravatar_id_for_email e2
  /\ gravatar_for_email cfg smart_urlquote e1 size rating
     = gravatar_for_email cfg smart_urlquote e2 size rating
  /\ gravatar_profile_for_email cfg urlopen load e1
     = gravatar_profile_for_email cfg urlopen load e2.
Proof.
  intros H.
  assert (T : _get_gravatar_id e1 = _get_gravatar_id e2)
    by (unfold _get_gravatar_id; now rewrite H).
  unfold gravatar_id_for_email, gravatar_for_email,
    gravatar_profile_for_email.
  rewrite T. repeat split.
Qed.

Lemma same_email_up_to_case_witness :
  PyStr.lower "Someone@Example.COM" = PyStr.lower "someONE@example.com"
  /\ gravatar_id_for_email "Someone@Example.COM"
     = gravatar_id_for_email "someONE@example.com".
Proof.
  split; [reflexivity|].
  apply (same_email_up_to_case default_settings Django.smart_urlquote
           sample_urlopen string sample_load
           "Someone@Example.COM" "someONE@example.com" PNone PNone).
  reflexivity.
Defined.

(** X6: a falsy rating (the empty string, 0 or [None]) is replaced by the
    configured default rating: the URL is the one obtained without a
    rating, and it has an [r=] item exactly when the default rating is
    truthy. *)
Theorem falsy_rating_uses_default
  (cfg : Settings) (smart_urlquote : string -> string)
  (email : string) (size rating : pyval) :
  truthy rating = false ->
  gravatar_for_email cfg smart_urlquote email size rating
    = gravatar_for_email cfg smart_urlquote email size PNone
  /\ (In "r" (List.map fst (parameters cfg size rating))
      <-> truthy (GRAVATAR_DEFAULT_RATING cfg) = true)
  /\ (forall v, In ("r", v) (parameters cfg size rating) ->
                v = GRAVATAR_DEFAULT_RATING cfg).
Proof.
  intros Hr.
  assert (P : parameters cfg size rating = parameters cfg size PNone).
  { unfold parameters. now rewrite (py_or_falsy rating), (py_or_falsy PNone). }
  split; [|split].
  - unfold gravatar_for_email. now rewrite P.
  - rewrite parameters_eq. cbv zeta. rewrite (py_or_falsy rating) by exact Hr.
    destruct (truthy (GRAVATAR_DEFAULT_IMAGE cfg)),
      (truthy (py_or size (GRAVATAR_DEFAULT_SIZE cfg))),
      (truthy (GRAVATAR_DEFAULT_RATING cfg));
      simpl; split; intros H; try reflexivity; try discriminate; auto;
      repeat (destruct H as [H | H]; try discriminate H); contradiction.
  - intros v. rewrite parameters_eq. cbv zeta.
    rewrite (py_or_falsy rating) by exact Hr.
    destruct (truthy (GRAVATAR_DEFAULT_IMAGE cfg)),
      (truthy (py_or size (GRAVATAR_DEFAULT_SIZE cfg))),
      (truthy (GRAVATAR_DEFAULT_RATING cfg));
      simpl; intros H;
      repeat (destruct H as [H | H]; try discriminate H);
      try contradiction; now inversion H.
Qed.

Lemma falsy_rating_uses_default_witness :
  truthy (PStr "") = false
  /\ gravatar_for_email default_settings Django.smart_urlquote
       "someone@example.com" (PInt 48) (PStr "")
     = gravatar_for_email default_settings Django.smart_urlquote
         "someone@example.com" (PInt 48) PNone.
Proof.
  split; [reflexivity|].
  apply (falsy_rating_uses_default default_settings Django.smart_urlquote
           "someone@example.com" (PInt 48) (PStr "")).
  reflexivity.
Defined.

Lemma parameters_truthy_size (cfg : Settings) (size rating : pyval) :
  truthy size = true -> In ("s", size) (parameters cfg size rating).
Proof.
  intros H. rewrite parameters_eq. cbv zeta.
  rewrite (py_or_truthy size) by exact H. rewrite H.
  apply in_or_app. right. apply in_or_app. left. now left.
Qed.

(** X7: a truthy size and a truthy rating are used as they are given,
    whatever their value (no bound is checked: a negative size is passed
    on): the [s=] and [r=] items carry them, and the URL does not depend on
    the configured default size and rating. *)
Theorem explicit_size_and_rating
  (prefix : string) (image default_rating default_size class : pyval)
  (default_rating' default_size' : pyval)
  (smart_urlquote : string -> string)
  (email : string) (size rating : pyval) :
  truthy size = true ->
  truthy rating = true ->
  let cfg := mkSettings prefix image default_rating default_size class in
  let cfg' := mkSettings prefix image default_rating' default_size' class in
  In ("s", size) (parameters cfg size rating)
  /\ In ("r", rating) (parameters cfg size rating)
  /\ (forall v, In ("s", v) (parameters cfg size rating) -> v = size)
  /\ (forall v, In ("r", v) (parameters cfg size rating) -> v = rating)
  /\ gravatar_for_email cfg smart_urlquote email size rating
     = gravatar_for_email cfg' smart_urlquote email size rating.
Proof.
  intros Hs Hr. cbv zeta.
  unfold gravatar_for_email. rewrite !parameters_eq. cbv zeta.
  cbn [GRAVATAR_DEFAULT_IMAGE GRAVATAR_DEFAULT_SIZE GRAVATAR_DEFAULT_RATING
       GRAVATAR_URL_PREFIX].
  rewrite !(py_or_truthy size) by exact Hs.
  rewrite !(py_or_truthy rating) by exact Hr.
  rewrite Hs, Hr.
  destruct (truthy image); simpl;
    (split; [auto|]); (split; [auto|]);
    (split; [|split; [|reflexivity]]); intros v H;
    repeat (destruct H as [H | H]; try discriminate H);
    try contradiction; now inversion H.
Qed.

Lemma explicit_size_and_rating_witness :
  truthy (PInt (-5)) = true
  /\ truthy (PStr "zz") = true
  /\ gravatar_for_email default_settings Django.smart_urlquote
       "someone@example.com" (PInt (-5)) (PStr "zz")
     = gravatar_for_email
         (mkSettings "http://www.gravatar.com/" (PStr "") PNone (PInt 512)
                     (PStr "gravatar"))
         Django.smart_urlquote "someone@example.com" (PInt (-5)) (PStr "zz").
Proof.
  split; [reflexivity|]. split; [reflexivity|].
  apply (explicit_size_and_rating "http://www.gravatar.com/" (PStr "")
           (PStr "g") (PInt 80) (PStr "gravatar") PNone (PInt 512)
           Django.smart_urlquote "someone@example.com"
           (PInt (-5)) (PStr "zz")); reflexivity.
Defined.

Example gravatar_for_email_negative :
  gravatar_for_email default_settings Django.smart_urlquote
    "someone@example.com" (PInt (-5)) (PStr "zz")
  = "http://www.gravatar.com/avatar/16d113840f999444259f73bac9ab8b10?s=-5&r=zz".
Proof. vm_compute. reflexivity. Qed.

(** ** The characters of the query string *)

Lemma forallb_append (p : ascii -> bool) (a b : string) :
  PyStr.forallb p (a ++ b) = PyStr.forallb p a && PyStr.forallb p b.
Proof.
  induction a as [|x a IH]; simpl; [reflexivity|].
  now rewrite IH, andb_assoc.
Qed.

Lemma forallb_weaken (p q : ascii -> bool) (s : string) :
  (forall c, p c = true -> q c = true) ->
  PyStr.forallb p s = true -> PyStr.forallb q s = true.
Proof.
  intros H. induction s as [|x s IH]; simpl; [reflexivity|].
  intros E. apply andb_true_iff in E as [E1 E2].
  now rewrite (H x E1), IH.
Qed.

Lemma forallb_not_contains (p : ascii -> bool) (c : ascii) (s : string) :
  p c = false -> PyStr.forallb p s = true -> PyStr.contains c s = false.
Proof.
  intros Hc. unfold PyStr.contains.
  induction s as [|x s IH]; simpl; [reflexivity|].
  intros E. apply andb_true_iff in E as [E1 E2].
  rewrite IH by exact E2. rewrite orb_false_r.
  apply Ascii.eqb_neq. intros ->. congruence.
Qed.

Lemma quote_char_plain (c : ascii) (rest : string) :
  PyStr.forallb url_safe_char (Urllib.quote_char "" c rest)
  = PyStr.forallb url_safe_char rest.
Proof.
  destruct c as [[] [] [] [] [] [] [] []]; reflexivity.
Qed.

Lemma quote_char_space (c : ascii) (rest : string) :
  PyStr.forallb url_safe_char
    (PyStr.replace Urllib.SPACE Urllib.PLUS (Urllib.quote_char " " c rest))
  = PyStr.forallb url_safe_char
      (PyStr.replace Urllib.SPACE Urllib.PLUS rest).
Proof.
  destruct c as [[] [] [] [] [] [] [] []]; reflexivity.
Qed.

(** What [quote_plus] writes is letters, digits and [_.-+%]. *)
Lemma quote_plus_chars (s : string) :
  PyStr.forallb url_safe_char (Urllib.quote_plus s) = true.
Proof.
  unfold Urllib.quote_plus. destruct (PyStr.contains Urllib.SPACE s).
  - induction s as [|c s IH]; [reflexivity|].
    cbn [Urllib.quote]. now rewrite quote_char_space.
  - induction s as [|c s IH]; [reflexivity|].
    cbn [Urllib.quote]. now rewrite quote_char_plain.
Qed.

Lemma url_safe_is_query_char (c : ascii) :
  url_safe_char c = true -> query_char c = true.
Proof. unfold query_char. now intros ->. Qed.

Lemma item_chars (k : string) (v : pyval) :
  PyStr.forallb query_char
    (Urllib.quote_plus k ++ "=" ++ Urllib.quote_plus (py_str v)) = true.
Proof.
  assert (Q : forall s,
             PyStr.forallb query_char (Urllib.quote_plus s) = true).
  { intros s. apply (forallb_weaken url_safe_char).
    - exact url_safe_is_query_char.
    - apply quote_plus_chars. }
  rewrite !forallb_append, !Q. reflexivity.
Qed.

Lemma urlencode_chars (ps : list (string * pyval)) :
  PyStr.forallb query_char (Urllib.urlencode ps) = true.
Proof.
  induction ps as [|[k v] ps IH]; [reflexivity|].
  rewrite urlencode_cons. destruct ps as [|p ps].
  - apply item_chars.
  - rewrite forallb_append, item_chars, forallb_append, IH. reflexivity.
Qed.

Lemma count_append (c : ascii) (a b : string) :
  count c (a ++ b) = (count c a + count c b)%nat.
Proof.
  induction a as [|x a IH]; simpl; [reflexivity|]. rewrite IH. lia.
Qed.

Lemma count_none (p : ascii -> bool) (c : ascii) (s : string) :
  p c = false -> PyStr.forallb p s = true -> count c s = O.
Proof.
  intros Hc. induction s as [|x s IH]; simpl; [reflexivity|].
  intros E. apply andb_true_iff in E as [E1 E2].
  rewrite IH by exact E2.
  destruct (Ascii.eqb_spec x c) as [-> | _]; [congruence | reflexivity].
Qed.

Lemma item_counts (k : string) (v : pyval) :
  count Html.EQUALS
    (Urllib.quote_plus k ++ "=" ++ Urllib.quote_plus (py_str v)) = 1%nat
  /\ count AMPERSAND
       (Urllib.quote_plus k ++ "=" ++ Urllib.quote_plus (py_str v)) = O.
Proof.
  assert (E : forall s, count Html.EQUALS (Urllib.quote_plus s) = O).
  { intros s. apply (count_none url_safe_char);
      [reflexivity | apply quote_plus_chars]. }
  assert (A : forall s, count AMPERSAND (Urllib.quote_plus s) = O).
  { intros s. apply (count_none url_safe_char);
      [reflexivity | apply quote_plus_chars]. }
  rewrite !count_append, !E, !A. split; reflexivity.
Qed.

Lemma urlencode_counts (ps : list (string * pyval)) :
  count Html.EQUALS (Urllib.urlencode ps) = List.length ps
  /\ count AMPERSAND (Urllib.urlencode ps) = Nat.pred (List.length ps).
Proof.
  induction ps as [|[k v] ps IH]; [split; reflexivity|].
  rewrite urlencode_cons. destruct (item_counts k v) as [E A].
  destruct ps as [|p ps].
  - rewrite E, A. split; reflexivity.
  - destruct IH as [IE IA].
    rewrite !(count_append _ (_ ++ "=" ++ _)), E, A.
    rewrite !count_append, IE, IA. split; simpl; lia.
Qed.

Lemma unquoted_no_dquote
  (cfg : Settings) (email : string) (size rating : pyval) :
  Html.no_dquote (gravatar_url_unquoted cfg email size rating)
  = Html.no_dquote (GRAVATAR_URL_PREFIX cfg).
Proof.
  pose proof (urlencode_chars (parameters cfg size rating)) as H.
  assert (T : Html.no_dquote (_get_gravatar_id email) = true).
  { unfold Html.no_dquote.
    rewrite (forallb_not_contains PyStr.is_lower_hex); [reflexivity .. |].
    apply hexdigest_lower, md5_range. }
  unfold gravatar_url_unquoted. cbv zeta.
  destruct (parameters cfg size rating) eqn:E;
    rewrite !no_dquote_append, T, ?andb_true_r.
  - reflexivity.
  - unfold Html.no_dquote at 3.
    rewrite (forallb_not_contains query_char DQUOTE _ eq_refl H).
    now rewrite !andb_true_r.
Qed.

(** X8: whatever the settings, the size and the rating are, the query
    string of the URL is made of letters, digits and the characters
    [_.-+%=&]: it holds no space, no double quote, no [?] and no [#], and
    so does all of the URL before quoting after a prefix that holds no
    double quote. *)
Theorem query_string_chars
  (cfg : Settings) (email : string) (size rating : pyval) :
  PyStr.forallb query_char (Urllib.urlencode (parameters cfg size rating))
    = true
  /\ PyStr.contains " " (Urllib.urlencode (parameters cfg size rating))
     = false
  /\ PyStr.contains "?" (Urllib.urlencode (parameters cfg size rating))
     = false
  /\ PyStr.contains "#" (Urllib.urlencode (parameters cfg size rating))
     = false
  /\ PyStr.contains DQUOTE (Urllib.urlencode (parameters cfg size rating))
     = false
  /\ Html.no_dquote (gravatar_url_unquoted cfg email size rating)
     = Html.no_dquote (GRAVATAR_URL_PREFIX cfg).
Proof.
  pose proof (urlencode_chars (parameters cfg size rating)) as H.
  split; [exact H|].
  repeat (split; [now apply (forallb_not_contains query_char)|]).
  apply unquoted_no_dquote.
Qed.

(** X9: the query string has one [=] for each parameter kept and one [&]
    between two of them, so at most three [=] and two [&]: a default image,
    a size or a rating that holds [&] or [=] adds no item. *)
Theorem query_string_items
  (cfg : Settings) (size rating : pyval) :
  let query := Urllib.urlencode (parameters cfg size rating) in
  count Html.EQUALS query = List.length (parameters cfg size rating)
  /\ count AMPERSAND query
     = Nat.pred (List.length (parameters cfg size rating))
  /\ (List.length (parameters cfg size rating) <= 3)%nat.
Proof.
  cbv zeta.
  destruct (urlencode_counts (parameters cfg size rating)) as [E A].
  split; [exact E|]. split; [exact A|].
  rewrite parameters_eq. cbv zeta.
  destruct (truthy (GRAVATAR_DEFAULT_IMAGE cfg)),
    (truthy (py_or size (GRAVATAR_DEFAULT_SIZE cfg))),
    (truthy (py_or rating (GRAVATAR_DEFAULT_RATING cfg))); simpl; lia.
Qed.

Example query_string_with_ampersand :
  gravatar_for_email default_settings Django.smart_urlquote
    "someone@example.com" (PInt 48) (PStr "pg&s=1024")
  = "http://www.gravatar.com/avatar/16d113840f999444259f73bac9ab8b10?s=48&r=pg%26s%3D1024".
Proof. vm_compute. reflexivity. Qed.

(** ** Sizes and ratings that need no escaping *)

Lemma uint_chars (d : Decimal.uint) :
  PyStr.forallb always_safe_char (NilEmpty.string_of_uint d) = true.
Proof. induction d; simpl; [reflexivity | assumption ..]. Qed.

Lemma py_str_int_chars (n : Z) :
  PyStr.forallb always_safe_char (py_str (PInt n)) = true.
Proof.
  assert (U : forall d,
             PyStr.forallb always_safe_char (NilZero.string_of_uint d) = true).
  { intros d. destruct d; first [reflexivity | apply uint_chars]. }
  unfold py_str, NilZero.string_of_int.
  destruct (Z.to_int n) as [d | d]; [apply U|].
  cbn [PyStr.forallb]. now rewrite U.
Qed.

Lemma py_str_int_no_dquote (n : Z) :
  Html.no_dquote (py_str (PInt n)) = true.
Proof.
  unfold Html.no_dquote.
  rewrite (forallb_not_contains always_safe_char);
    [reflexivity .. | apply py_str_int_chars].
Qed.

Lemma quote_plus_safe (s : string) :
  PyStr.forallb always_safe_char s = true -> Urllib.quote_plus s = s.
Proof.
  intros H. unfold Urllib.quote_plus.
  rewrite (forallb_not_contains always_safe_char Urllib.SPACE s eq_refl H).
  induction s as [|c s IH]; [reflexivity|].
  simpl in H. apply andb_true_iff in H as [Hc Hs].
  cbn [Urllib.quote]. unfold Urllib.quote_char.
  unfold always_safe_char in Hc. rewrite Hc. cbn [orb].
  now rewrite IH.
Qed.

(** X10: when no default image is configured, the URL for a non-zero
    integer size [n] and a rating [r] made of letters, digits and [_.-] is
    the quoted form of [<prefix>avatar/<token>?s=<n>&r=<r>], with [n] in
    decimal: nothing of the two is escaped. *)
Theorem gravatar_for_email_plain
  (cfg : Settings) (smart_urlquote : string -> string)
  (email : string) (n : Z) (r : string) :
  truthy (GRAVATAR_DEFAULT_IMAGE cfg) = false ->
  n <> 0%Z ->
  r <> "" ->
  PyStr.forallb always_safe_char r = true ->
  gravatar_for_email cfg smart_urlquote email (PInt n) (PStr r)
  = smart_urlquote
      (GRAVATAR_URL_PREFIX cfg ++ "avatar/" ++ gravatar_id_for_email email
         ++ "?s=" ++ py_str (PInt n) ++ "&r=" ++ r).
Proof.
  intros Hd Hn Hr Hsafe.
  assert (Ts : truthy (PInt n) = true)
    by (simpl; apply negb_true_iff; now apply Z.eqb_neq).
  assert (Tr : truthy (PStr r) = true)
    by (simpl; apply negb_true_iff; now apply String.eqb_neq).
  unfold gravatar_for_email, gravatar_id_for_email.
  rewrite parameters_eq. cbv zeta.
  rewrite (py_or_truthy _ _ Ts), (py_or_truthy _ _ Tr), Hd, Ts, Tr.
  cbn [app]. rewrite !urlencode_cons.
  rewrite (quote_plus_safe (py_str (PInt n)) (py_str_int_chars n)).
  cbn [py_str]. rewrite (quote_plus_safe r Hsafe).
  destruct quote_plus_keys as (_ & -> & ->).
  now rewrite !append_assoc.
Qed.

Lemma gravatar_for_email_plain_witness :
  truthy (GRAVATAR_DEFAULT_IMAGE default_settings) = false
  /\ 48%Z <> 0%Z
  /\ "pg" <> ""
  /\ PyStr.forallb always_safe_char "pg" = true
  /\ gravatar_for_email default_settings Django.smart_urlquote
       "someone@example.com" (PInt 48) (PStr "pg")
     = Django.smart_urlquote
         ("http://www.gravatar.com/" ++ "avatar/"
            ++ gravatar_id_for_email "someone@example.com"
            ++ "?s=" ++ py_str (PInt 48) ++ "&r=" ++ "pg").
Proof.
  assert (H1 : 48%Z <> 0%Z) by discriminate.
  assert (H2 : "pg" <> "") by discriminate.
  split; [reflexivity|]. split; [exact H1|]. split; [exact H2|].
  split; [reflexivity|].
  exact (gravatar_for_email_plain default_settings Django.smart_urlquote
           "someone@example.com" 48%Z "pg" eq_refl H1 H2 eq_refl).
Defined.

(** ** The image tags for an email, from end to end *)

Lemma django_quote_char (c : ascii) (rest : string) :
  PyStr.contains DQUOTE (Urllib.quote_char Django.safe c rest)
  = PyStr.contains DQUOTE rest.
Proof.
  destruct c as [[] [] [] [] [] [] [] []]; reflexivity.
Qed.

(** Django's quoting rule brings no double quote into a URL. *)
Lemma django_quote_no_dquote (u : string) :
  Html.no_dquote u = true -> Html.no_dquote (Django.smart_urlquote u) = true.
Proof.
  intros H. unfold Django.smart_urlquote.
  destruct (negb (PyStr.contains Urllib.PERCENT u) || Django.unquoted_percents u);
    [|exact H].
  clear H. unfold Html.no_dquote. apply negb_true_iff.
  induction u as [|c u IH]; [reflexivity|].
  cbn [Urllib.quote]. now rewrite django_quote_char.
Qed.

Lemma wrapped_url_parses
  (cfg : Settings) (smart_urlquote : string -> string)
  (email info : string) (url_size size rating : pyval) :
  (forall u, Html.no_dquote u = true ->
             Html.no_dquote (smart_urlquote u) = true) ->
  Html.no_dquote (GRAVATAR_URL_PREFIX cfg) = true ->
  Html.no_dquote (py_str (GRAVATAR_IMG_CLASS cfg)) = true ->
  Html.no_dquote info = true ->
  Html.no_dquote (py_str size) = true ->
  let url := gravatar_for_email cfg smart_urlquote email url_size rating in
  Html.parse_img (_wrap_img_tag cfg smart_urlquote url info size)
  = Some (img_attrs cfg (smart_urlquote url) info size).
Proof.
  intros Hq Hp Hc Hi Hs. cbv zeta.
  rewrite _wrap_img_tag_render.
  apply parse_render_img, img_attrs_ok; try assumption.
  rewrite gravatar_for_email_unquoted. apply Hq, Hq.
  now rewrite unquoted_no_dquote.
Qed.

Lemma gravatar_for_email_default_size
  (cfg : Settings) (smart_urlquote : string -> string)
  (email : string) (rating : pyval) :
  gravatar_for_email cfg smart_urlquote email PNone rating
  = gravatar_for_email cfg smart_urlquote email
      (GRAVATAR_DEFAULT_SIZE cfg) rating.
Proof.
  unfold gravatar_for_email, parameters.
  replace (py_or (GRAVATAR_DEFAULT_SIZE cfg) (GRAVATAR_DEFAULT_SIZE cfg))
    with (py_or PNone (GRAVATAR_DEFAULT_SIZE cfg)); [reflexivity|].
  unfold py_or. cbn [truthy].
  now destruct (truthy (GRAVATAR_DEFAULT_SIZE cfg)).
Qed.

(** X12: the image tag for an email called without a size builds the URL
    with the configured default size, but writes the text [None], not that
    size, as [height] and [width] of the element. *)
Theorem img_for_email_without_size
  (cfg : Settings) (smart_urlquote : string -> string)
  (email : string) (rating : pyval) :
  (forall u, Html.no_dquote u = true ->
             Html.no_dquote (smart_urlquote u) = true) ->
  Html.no_dquote (GRAVATAR_URL_PREFIX cfg) = true ->
  Html.no_dquote (py_str (GRAVATAR_IMG_CLASS cfg)) = true ->
  Html.no_dquote email = true ->
  exists out attrs,
    gravatar_img_for_email cfg smart_urlquote email PNone rating = Ok out
    /\ Html.parse_img out = Some attrs
    /\ Html.values "src" attrs
       = [smart_urlquote
            (gravatar_for_email cfg smart_urlquote email
               (GRAVATAR_DEFAULT_SIZE cfg) rating)]
    /\ Html.values "height" attrs = ["None"]
    /\ Html.values "width" attrs = ["None"].
Proof.
  intros Hq Hp Hc He.
  unfold gravatar_img_for_email.
  eexists. eexists. split; [reflexivity|]. split.
  - apply wrapped_url_parses; try assumption. reflexivity.
  - rewrite gravatar_for_email_default_size.
    unfold img_attrs, Html.values.
    destruct (truthy (GRAVATAR_IMG_CLASS cfg)); cbn; repeat split.
Qed.

Lemma img_for_email_without_size_witness :
  (forall u, Html.no_dquote u = true ->
             Html.no_dquote (Django.smart_urlquote u) = true)
  /\ Html.no_dquote (GRAVATAR_URL_PREFIX default_settings) = true
  /\ Html.no_dquote (py_str (GRAVATAR_IMG_CLASS default_settings)) = true
  /\ Html.no_dquote "someone@example.com" = true
  /\ exists out attrs,
      gravatar_img_for_email default_settings Django.smart_urlquote
        "someone@example.com" PNone PNone = Ok out
      /\ Html.parse_img out = Some attrs
      /\ Html.values "src" attrs
         = [Django.smart_urlquote
              (gravatar_for_email default_settings Django.smart_urlquote
                 "someone@example.com"
                 (GRAVATAR_DEFAULT_SIZE default_settings) PNone)]
      /\ Html.values "height" attrs = ["None"]
      /\ Html.values "width" attrs = ["None"].
Proof.
  split; [exact django_quote_no_dquote|].
  split; [reflexivity|]. split; [reflexivity|]. split; [reflexivity|].
  exact (img_for_email_without_size default_settings Django.smart_urlquote
           "someone@example.com" PNone
           django_quote_no_dquote eq_refl eq_refl eq_refl).
Defined.

(** ** Sizes the retina tags do not double *)

(** X13: for a size that is falsy but not [None] (0 or the empty string),
    the retina tag for an email does not double anything: the URL is the
    one for the configured default size, as without a size, and the element
    carries the size passed. *)
Theorem retina_falsy_size
  (cfg : Settings) (smart_urlquote : string -> string)
  (email : string) (size rating : pyval) :
  truthy size = false ->
  size <> PNone ->
  gravatar_retina_img_for_email cfg smart_urlquote email size rating
  = Ok (_wrap_img_tag cfg smart_urlquote
          (gravatar_for_email cfg smart_urlquote email
             (GRAVATAR_DEFAULT_SIZE cfg) rating)
          email size).
Proof.
  intros Hf Hn. rewrite <- gravatar_for_email_default_size.
  unfold gravatar_retina_img_for_email.
  assert (E : py_mul2 size = Ok size).
  { destruct size as [| n | s]; [congruence | |].
    - simpl in Hf. apply negb_false_iff, Z.eqb_eq in Hf. now subst n.
    - simpl in Hf. apply negb_false_iff, String.eqb_eq in Hf. now subst s. }
  rewrite E. cbn [bind]. do 2 f_equal.
  unfold gravatar_for_email, parameters.
  now rewrite (py_or_falsy size), (py_or_falsy PNone).
Qed.

Lemma retina_falsy_size_witness :
  truthy (PInt 0) = false
  /\ PInt 0 <> PNone
  /\ gravatar_retina_img_for_email default_settings Django.smart_urlquote
       "someone@example.com" (PInt 0) (PStr "pg")
     = Ok (_wrap_img_tag default_settings Django.smart_urlquote
             (gravatar_for_email default_settings Django.smart_urlquote
                "someone@example.com"
                (GRAVATAR_DEFAULT_SIZE default_settings) (PStr "pg"))
             "someone@example.com" (PInt 0)).
Proof.
  assert (H : PInt 0 <> PNone) by discriminate.
  split; [reflexivity|]. split; [exact H|].
  exact (retina_falsy_size default_settings Django.smart_urlquote
           "someone@example.com" (PInt 0) (PStr "pg") eq_refl H).
Defined.

(** X14: given a size that is a non-empty string, the retina tag for an
    email builds the URL with the string written twice ([48] becomes
    [4848]), not with twice its number: that string is the value of the
    [s=] item, and the element carries the string passed. *)
Theorem retina_string_size
  (cfg : Settings) (smart_urlquote : string -> string)
  (email s : string) (rating : pyval) :
  s <> "" ->
  gravatar_retina_img_for_email cfg smart_urlquote email (PStr s) rating
  = Ok (_wrap_img_tag cfg smart_urlquote
          (gravatar_for_email cfg smart_urlquote email (PStr (s ++ s)) rating)
          email (PStr s))
  /\ In ("s", PStr (s ++ s)) (parameters cfg (PStr (s ++ s)) rating)
  /\ (forall v, In ("s", v) (parameters cfg (PStr (s ++ s)) rating) ->
                v = PStr (s ++ s)).
Proof.
  intros Hs.
  assert (T : truthy (PStr (s ++ s)) = true)
    by (destruct s; [congruence | reflexivity]).
  split; [reflexivity|]. split.
  - now apply parameters_truthy_size.
  - intros v. rewrite parameters_eq. cbv zeta.
    rewrite (py_or_truthy _ _ T), T.
    destruct (truthy (GRAVATAR_DEFAULT_IMAGE cfg)),
      (truthy (py_or rating (GRAVATAR_DEFAULT_RATING cfg)));
      simpl; intros H;
      repeat (destruct H as [H | H]; try discriminate H);
      try contradiction; now inversion H.
Qed.

Lemma retina_string_size_witness :
  "48" <> ""
  /\ gravatar_retina_img_for_email default_settings Django.smart_urlquote
       "someone@example.com" (PStr "48") (PStr "pg")
     = Ok (_wrap_img_tag default_settings Django.smart_urlquote
             (gravatar_for_email default_settings Django.smart_urlquote
                "someone@example.com" (PStr ("48" ++ "48")) (PStr "pg"))
             "someone@example.com" (PStr "48")).
Proof.
  assert (H : "48" <> "") by discriminate.
  split; [exact H|].
  exact (proj1 (retina_string_size default_settings Django.smart_urlquote
                  "someone@example.com" "48" (PStr "pg") H)).
Defined.

Example retina_string_size_48 :
  gravatar_retina_img_for_email default_settings Django.smart_urlquote
    "someone@example.com" (PStr "48") (PStr "pg")
  = Ok (Html.render_img
          [ ("src", "http://www.gravatar.com/avatar/16d113840f999444259f73bac9ab8b10?s=4848&r=pg");
            ("class", "gravatar");
            ("alt", "Avatar for someone@example.com");
            ("height", "48");
            ("width", "48") ]).
Proof. vm_compute. reflexivity. Qed.

(** X16: when user names are unique in the table, the two image tags for a
    user given the name of a row find the user and then raise the
    [AttributeError] of [user.username] (the retina tag for an integer
    size): the error is not the one of an unknown user. *)
Theorem img_for_user_known_name
  (cfg : Settings) (smart_urlquote : string -> string) (users : list User.t)
  (u : User.t) (n : Z) (size rating : pyval) :
  NoDup (List.map User.username users) ->
  In u users ->
  let e := AttributeError "'str' object has no attribute 'username'" in
  gravatar_img_for_user cfg smart_urlquote users
    (UserName (User.username u)) size rating = Raise e
  /\ gravatar_retina_img_for_user cfg smart_urlquote users
       (UserName (User.username u)) (PInt n) rating = Raise e.
Proof.
  intros Hnd Hin. cbv zeta.
  unfold gravatar_img_for_user, gravatar_retina_img_for_user,
    gravatar_for_user.
  rewrite (objects_get_known users u Hnd Hin). split; reflexivity.
Qed.

Lemma img_for_user_known_name_witness :
  NoDup (List.map User.username sample_users)
  /\ In jtauber sample_users
  /\ gravatar_img_for_user default_settings Django.smart_urlquote
       sample_users (UserName (User.username jtauber)) PNone PNone
     = Raise (AttributeError "'str' object has no attribute 'username'").
Proof.
  assert (H2 : NoDup (List.map User.username sample_users)).
  { simpl. repeat constructor; simpl; intuition discriminate. }
  assert (H3 : In jtauber sample_users) by (simpl; auto).
  split; [exact H2|]. split; [exact H3|].
  exact (proj1 (img_for_user_known_name default_settings
                  Django.smart_urlquote sample_users jtauber
                  48%Z PNone PNone H2 H3)).
Defined.

(* ================================================================== *)
(** * The URL against the spec's wording *)




Lemma effective_py_or (a d : pyval) : py_or a d = effective a d.
Proof. reflexivity. Qed.


(** ** Django's quoting on the URL of the tag *)
















(* ================================================================== *)
(** * The identity token on the two string types *)



Lemma ascii_code_point (c : N) :
  Unicode.is_ascii c = true ->
  exists n : nat, (n < 128)%nat /\ c = N.of_nat n.
Proof.
  unfold Unicode.is_ascii. intros H. apply N.ltb_lt in H.
  exists (N.to_nat c). split; lia.
Qed.

Lemma unicode_tolower_ascii (c : N) :
  Unicode.is_ascii c = true ->
  Unicode.is_ascii (Unicode.tolower c) = true
  /\ ascii_of_N (Unicode.tolower c) = PyStr.tolower (ascii_of_N c)
  /\ Unicode.tolower (Unicode.toupper c) = Unicode.tolower c.
Proof.
  intros H. destruct (ascii_code_point c H) as (n & Hn & ->).
  do 128 (destruct n as [|n]; [repeat split|]). lia.
Qed.

Lemma unicode_lower_ascii (u : list N) :
  List.forallb Unicode.is_ascii u = true ->
  Unicode.encode_ascii (List.map Unicode.tolower u)
    = Ok (PyStr.lower (string_of_list_ascii (List.map ascii_of_N u)))
  /\ List.map Unicode.tolower (List.map Unicode.toupper u)
     = List.map Unicode.tolower u.
Proof.
  intros H. unfold Unicode.encode_ascii.
  assert (A : List.forallb Unicode.is_ascii (List.map Unicode.tolower u)
              = true
              /\ string_of_list_ascii
                   (List.map ascii_of_N (List.map Unicode.tolower u))
                 = PyStr.lower (string_of_list_ascii (List.map ascii_of_N u))
              /\ List.map Unicode.tolower (List.map Unicode.toupper u)
                 = List.map Unicode.tolower u).
  { induction u as [|c u IH]; [repeat split|].
    cbn [List.forallb] in H. apply andb_true_iff in H as [Hc Hu].
    destruct (unicode_tolower_ascii c Hc) as (L1 & L2 & L3).
    destruct (IH Hu) as (I1 & I2 & I3).
    cbn [List.map List.forallb string_of_list_ascii].
    unfold PyStr.lower in *. cbn [PyStr.map].
    rewrite L1, L2, L3, I1, I2, I3. repeat split. }
  destruct A as (A1 & A2 & A3). rewrite A1, A2. split; [reflexivity|exact A3].
Qed.

Lemma text_token_bytes (email : pytext) :
  encodable email = true ->
  exists bytes,
    Text.to_bytes email = Ok bytes
    /\ Text.gravatar_id_for_email email
       = Ok (Hashlib.hexdigest (Hashlib.md5 (PyStr.lower bytes))).
Proof.
  destruct email as [s | u]; intros H.
  - exists s. split; reflexivity.
  - exists (string_of_list_ascii (List.map ascii_of_N u)). cbn in H.
    unfold Text.gravatar_id_for_email, Text._get_gravatar_id.
    cbn [Text.lower Text.to_bytes].
    destruct (unicode_lower_ascii u H) as [E _]. rewrite E.
    unfold Unicode.encode_ascii. rewrite H. split; reflexivity.
Qed.




(** C3, as stated, fails on a [unicode] email: with the dotless i, U+0131,
    the email has no token, since its lower case keeps the letter and
    [hashlib.md5] raises, while its upper case, which turns the letter into
    [I], has one. *)
Lemma gravatar_id_case_sensitive_unicode :
  Text.gravatar_id_for_email dotless_email
  = Raise (UnicodeEncodeError
             "'ascii' codec can't encode character: ordinal not in range(128)")
  /\ Text.gravatar_id_for_email (Text.upper dotless_email)
     = Ok "11c775d3b46ce7f30f5d98b4f4f2310e"
  /\ Text.gravatar_id_for_email dotless_email
     <> Text.gravatar_id_for_email (Text.upper dotless_email).
Proof.
  split; [reflexivity|]. split; [vm_compute; reflexivity|].
  intros E. vm_compute in E. discriminate E.
Qed.

(** C3, amended: for every email that is a [str], or a [unicode] of ASCII
    characters, the email has a token, and the email in upper case has the
    same one. *)
Theorem gravatar_id_case_insensitive (email : pytext) :
  encodable email = true ->
  Text.gravatar_id_for_email email
    = Text.gravatar_id_for_email (Text.upper email)
  /\ exists token, Text.gravatar_id_for_email email = Ok token.
Proof.
  intros H. split.
  - unfold Text.gravatar_id_for_email, Text._get_gravatar_id.
    destruct email as [s | u]; cbn [Text.upper Text.lower].
    + now rewrite lower_upper.
    + cbn in H. destruct (unicode_lower_ascii u H) as [_ E]. now rewrite E.
  - destruct (text_token_bytes email H) as (bytes & _ & T). eauto.
Qed.

Lemma gravatar_id_case_insensitive_witness :
  encodable (Uni (Unicode.of_str "Someone@Example.com")) = true
  /\ Text.gravatar_id_for_email (Uni (Unicode.of_str "Someone@Example.com"))
     = Text.gravatar_id_for_email
         (Text.upper (Uni (Unicode.of_str "Someone@Example.com"))).
Proof.
  split; [reflexivity|].
  exact (proj1 (gravatar_id_case_insensitive
                  (Uni (Unicode.of_str "Someone@Example.com")) eq_refl)).
Defined.
